(** * Scientific-RAG: a shallow embedding of [main.py]

    The program is one Streamlit script.  Every user interaction runs the
    script from its first line to its last against the state of the
    process (files on disk, the environment, the [st.cache_resource]
    store) and the widget values of that interaction.  The embedding keeps
    that shape: Python values become Rocq values, the effects of the
    script are threaded through a state-and-exception monad over a
    [World], the third-party collaborators (llmware, Groq) are the fields
    of a [Services] record, and one run of the script is the function
    [script]. *)

From Stdlib Require Import Ascii String QArith Qabs.
From stdpp Require Import base option list sorting strings gmap pretty.


(** ** Python strings *)

Module Py.

(** An exception object: the name of its class and [str(e)].  Every
    exception of the model derives from [Exception]; the one
    [BaseException] the script meets, Streamlit's rerun request, is a
    separate outcome (see [Outcome] below). *)
Record PyExc := mkExc { exc_type : string; exc_str : string }.

(** A computation that returns a value or raises. *)
Definition map_ok {A B} (f : A → B) (r : PyExc + A) : PyExc + B :=
  match r with
  | inl e => inl e
  | inr a => inr (f a)
  end.

(** [sep.join(items)] *)
Fixpoint join (sep : string) (items : list string) : string :=
  match items with
  | [] => ""
  | [x] => x
  | x :: rest => x +:+ sep +:+ join sep rest
  end.

(** [template.format(name=value, ...)], the keyword arguments being the
    dict [kwargs], for the replacement fields the script uses: [{name}] is replaced by [kwargs[name]], [{{] and [}}] stand for
    one brace.  The text is scanned once, left to right; substituted
    values are never scanned again.  [field] is [None] in literal text and
    [Some name] while the name of a replacement field is being read.
    Conversions ([!r]), format specifications ([:>10]) and attribute or
    index access inside a field are not used by the script and are not
    modelled. *)
Fixpoint format_aux (kwargs : gmap string string) (field : option string)
    (s : string) : PyExc + string :=
  match s with
  | EmptyString =>
      match field with
      | None => inr ""
      | Some "" => inl (mkExc "ValueError" "Single '{' encountered in format string")
      | Some _ => inl (mkExc "ValueError" "expected '}' before end of string")
      end
  | String c rest =>
      match field with
      | None =>
          if Ascii.eqb c "{"%char then
            match rest with
            | String c' rest' =>
                if Ascii.eqb c' "{"%char
                then map_ok (String "{"%char) $ format_aux kwargs None rest'
                else format_aux kwargs (Some "") rest
            | EmptyString => format_aux kwargs (Some "") rest
            end
          else if Ascii.eqb c "}"%char then
            match rest with
            | String c' rest' =>
                if Ascii.eqb c' "}"%char
                then map_ok (String "}"%char) $ format_aux kwargs None rest'
                else inl (mkExc "ValueError" "Single '}' encountered in format string")
            | EmptyString =>
                inl (mkExc "ValueError" "Single '}' encountered in format string")
            end
          else map_ok (String c) $ format_aux kwargs None rest
      | Some name =>
          if Ascii.eqb c "}"%char then
            if String.eqb name "" then
              inl (mkExc "IndexError"
                     "Replacement index 0 out of range for positional args tuple")
            else
              match kwargs !! name with
              | Some v => map_ok (String.append v) $ format_aux kwargs None rest
              | None => inl (mkExc "KeyError" ("'" +:+ name +:+ "'"))
              end
          else format_aux kwargs (Some (name +:+ String c "")) rest
      end
  end.

(** Text without braces: [format] copies it. *)
Fixpoint brace_free (s : string) : bool :=
  match s with
  | EmptyString => true
  | String c rest =>
      negb (Ascii.eqb c "{"%char) && negb (Ascii.eqb c "}"%char) && brace_free rest
  end.

Definition format (template : string) (kwargs : gmap string string)
    : PyExc + string :=
  format_aux kwargs None template.

End Py.

Import Py.

(** ** Configuration (lines 10-13) *)

Definition LIBRARY_NAME : string := "scientific_papers_lib".
Definition RESEARCH_PAPERS_PATH : string := "./research_papers".
Definition EMBEDDING_MODEL : string := "jinaai/jina-embeddings-v2-small-en".
Definition LLM_MODEL : string := "llama-3.3-70b-versatile".

(** ** Prompt assembly (lines 151-165) *)

(** One retrieved chunk, as [Query.semantic_query] returns it: its text,
    its similarity score and where it comes from.  The libraries compute
    scores in floating point; only their order matters here and they are
    rationals in the model. *)
Record Result := mkResult {
  text : string;
  score : Q;
  file_source : string
}.

Definition prompt_template : string :=
"You are a world-renowned scientific genius. Your intellect is unparalleled.
Based *only* on the provided context from research papers, provide a clear, concise, and accurate answer to the query.
If the context does not contain the answer, state that clearly.
Format your response in neatly structured markdown.

Context:
{context}

Query:
{query}

Reply:
".

Definition context_separator : string := "
---
".

(** The template, cut at its two replacement fields. *)
Definition prompt_head : string :=
"You are a world-renowned scientific genius. Your intellect is unparalleled.
Based *only* on the provided context from research papers, provide a clear, concise, and accurate answer to the query.
If the context does not contain the answer, state that clearly.
Format your response in neatly structured markdown.

Context:
".

Definition prompt_middle : string := "

Query:
".

Definition prompt_tail : string := "

Reply:
".

(** [context = sep.join([result['text'] for result in query_results[:7]])] *)
Definition context_of (query_results : list Result) : string :=
  join context_separator (text <$> take 7 query_results).

(** [final_prompt = prompt_template.format(context=context, query=user_query)] *)
Definition final_prompt (query_results : list Result) (user_query : string)
    : PyExc + string :=
  format prompt_template
    (<["context" := context_of query_results]> (<["query" := user_query]> ∅)).

(** ** The state of the process *)

Definition bytes : Type := list Byte.byte.

(** A chunk of a parsed document, and an embedding vector. *)
Record Block := mkBlock { block_text : string; block_source : string }.

Definition Vector : Type := list Q.

(** Modelled from the spec: the llmware collection, whose storage is not
    part of this repository.  A Collection is a named, persistent index
    over one corpus: the chunks added so far and, once an embedding is
    installed, the embedding model with the vectors computed for the
    chunks.  It is fully embedded when there is one vector per chunk; a
    build that fails part-way leaves it partially built. *)
Record Collection := mkCollection {
  blocks : list Block;
  embedding : option (string * list Vector)
}.

Definition empty_collection : Collection := mkCollection [] None.

Definition fully_embedded (c : Collection) : bool :=
  match embedding c with
  | Some (_, vectors) => length vectors =? length (blocks c)
  | None => match blocks c with [] => true | _ :: _ => false end
  end.

(** The Python object [Library().load_library(name)] or
    [Library().create_new_library(name)] returns.  [library_id] is the
    identity of the object: every construction allocates a new one. *)
Record Library := mkLibrary { library_id : nat; library_name : string }.

(** What Streamlit renders during a run, in order. *)
Inductive Element :=
  | Title (body : string)
  | Markdown (body : string)
  | Header (body : string)
  | Subheader (body : string)
  | Write (body : string)
  | Info (body : string)
  | Success (body : string)
  | Warning (body : string)
  | Error (body : string)
  | Spinner (body : string)
  | Balloons.

(** A single-turn chat request and its response (Groq's
    [chat.completions.create]).  The content of a message is its text; a
    response whose content is absent is not modelled. *)
Record Message := mkMessage { role : string; content : string }.
Record ChatRequest := mkChatRequest {
  req_api_key : string;
  req_messages : list Message;
  req_model : string
}.
Record Choice := mkChoice { message : Message }.
Record ChatCompletion := mkChatCompletion { choices : list Choice }.

(** The calls the script makes to its collaborators and to the operating
    system, in the order they are made. *)
Inductive Call :=
  | CallMakedirs (path : string)
  | CallRmtree (path : string)
  | CallWriteFile (folder name : string)
  | CallLoadLibrary (name : string)
  | CallCreateNewLibrary (name : string)
  | CallAddFiles (name folder : string)
  | CallInstallNewEmbedding (name model vector_db : string)
  | CallSemanticQuery (lib : Library) (query : string) (result_count : Z)
  | CallChatCompletions (req : ChatRequest).

(** One entry of the [st.cache_resource] store of [setup_library]: the
    value the function returned and the elements it rendered, which
    Streamlit replays when the entry is hit. *)
Record CacheEntry := mkCacheEntry {
  cached_value : Library;
  cached_elements : list Element
}.

Record World := mkWorld {
  (** plain directories by path, each a map from file name to content;
      the directories at and under [~/llmware/library] are the next two
      fields *)
  folders : gmap string (gmap string bytes);
  (** [~/llmware/library] exists *)
  library_root : bool;
  (** the names [n] for which the directory [~/llmware/library/n] exists *)
  library_dirs : gset string;
  (** the collections llmware holds, by name.  llmware keeps them in its
      own data store, which is no directory under [~/llmware/library] *)
  libraries : gmap string Collection;
  (** the variables of the [.env] file *)
  dotenv_file : gmap string string;
  (** [os.environ] *)
  environ : gmap string string;
  (** [st.cache_resource] store of [setup_library], keyed by its argument *)
  cache : gmap string CacheEntry;
  (** identity of the next Python object *)
  next_id : nat;
  (** elements rendered by the current run *)
  ui : list Element;
  (** collaborator calls made so far *)
  calls : list Call
}.

(** The third-party collaborators, opaque behind their interfaces. *)
(** What is on disk, for the operating system. *)
Record Disk := mkDisk {
  disk_folders : gmap string (gmap string bytes);
  disk_library_root : bool;
  disk_library_dirs : gset string;
  disk_libraries : gmap string Collection;
  disk_dotenv_file : gmap string string
}.

Record Services := mkServices {
  (** llmware's parser and chunker behind [Library.add_files]: the
      chunks the collection holds, the files of the folder, [chunk_size],
      [max_chunk_size], [smart_chunking].  It gives the chunks it has
      added and, when it stops on an exception, the exception: what was
      added before stays *)
  parse_and_chunk :
    list Block → gmap string bytes → Z → Z → Z → list Block * option PyExc;
  (** the embedding model and vector store behind
      [Library.install_new_embedding]: model, vector db, chunks.  It
      gives the vectors it has stored and, when it stops on an exception,
      the exception *)
  embed_blocks : string → string → list Block → list Vector * option PyExc;
  (** [Query(library).semantic_query(query, result_count=n)], reading the
      stored collections *)
  semantic_query :
    gmap string Collection → Library → string → Z → PyExc + list Result;
  (** Groq's [client.chat.completions.create] *)
  chat_completions_create : ChatRequest → PyExc + ChatCompletion;
  (** the operating system's [open(path, "wb")] followed by a write, for
      a path that is no plain file name inside the folder (it holds a
      separator, is empty, [.] or [..]): it raises or leaves the disk in
      another state *)
  open_elsewhere : Disk → string → bytes → PyExc + Disk
}.

(** ** The monad of the script *)

(** How a piece of the script ends: it returns, it raises an exception
    deriving from [Exception], or [st.rerun()] has raised Streamlit's
    rerun request, a [BaseException] that [except Exception] does not
    catch. *)
Inductive Outcome (A : Type) :=
  | Ret (a : A)
  | Raise (e : PyExc)
  | RerunRequest.
Arguments Ret {A} a.
Arguments Raise {A} e.
Arguments RerunRequest {A}.

Definition M (A : Type) : Type := World → Outcome A * World.

#[global] Instance M_ret : MRet M := λ A a w, (Ret a, w).

#[global] Instance M_bind : MBind M := λ A B f m w,
  match m w with
  | (Ret a, w') => f a w'
  | (Raise e, w') => (Raise e, w')
  | (RerunRequest, w') => (RerunRequest, w')
  end.

Definition raise {A} (e : PyExc) : M A := λ w, (Raise e, w).

Definition lift {A} (r : PyExc + A) : M A :=
  match r with
  | inl e => raise e
  | inr a => mret a
  end.

(** The end of a step that may have stopped on an exception. *)
Definition raise_if (failure : option PyExc) : M unit :=
  match failure with
  | Some e => raise e
  | None => mret tt
  end.

Definition get_world : M World := λ w, (Ret w, w).
Definition modify (f : World → World) : M unit := λ w, (Ret tt, f w).

(** [try: body  except Exception as e: handler e] *)
Definition try_except {A} (body : M A) (handler : PyExc → M A) : M A := λ w,
  match body w with
  | (Raise e, w') => handler e w'
  | r => r
  end.

(** [for x in xs: body x] *)
Fixpoint for_each {A} (xs : list A) (body : A → M unit) : M unit :=
  match xs with
  | [] => mret tt
  | x :: rest => body x;; for_each rest body
  end.

(** Field updates of the world. *)
Definition set_folders (f : gmap string (gmap string bytes)) (w : World) : World :=
  mkWorld f (library_root w) (library_dirs w) (libraries w) (dotenv_file w)
    (environ w) (cache w) (next_id w) (ui w) (calls w).
Definition set_library_root (b : bool) (w : World) : World :=
  mkWorld (folders w) b (library_dirs w) (libraries w) (dotenv_file w)
    (environ w) (cache w) (next_id w) (ui w) (calls w).
Definition set_library_dirs (d : gset string) (w : World) : World :=
  mkWorld (folders w) (library_root w) d (libraries w) (dotenv_file w)
    (environ w) (cache w) (next_id w) (ui w) (calls w).
Definition set_libraries (l : gmap string Collection) (w : World) : World :=
  mkWorld (folders w) (library_root w) (library_dirs w) l (dotenv_file w)
    (environ w) (cache w) (next_id w) (ui w) (calls w).
Definition set_environ (e : gmap string string) (w : World) : World :=
  mkWorld (folders w) (library_root w) (library_dirs w) (libraries w) (dotenv_file w)
    e (cache w) (next_id w) (ui w) (calls w).
Definition set_cache (c : gmap string CacheEntry) (w : World) : World :=
  mkWorld (folders w) (library_root w) (library_dirs w) (libraries w) (dotenv_file w)
    (environ w) c (next_id w) (ui w) (calls w).
Definition set_next_id (n : nat) (w : World) : World :=
  mkWorld (folders w) (library_root w) (library_dirs w) (libraries w) (dotenv_file w)
    (environ w) (cache w) n (ui w) (calls w).
Definition set_ui (u : list Element) (w : World) : World :=
  mkWorld (folders w) (library_root w) (library_dirs w) (libraries w) (dotenv_file w)
    (environ w) (cache w) (next_id w) u (calls w).
Definition set_calls (c : list Call) (w : World) : World :=
  mkWorld (folders w) (library_root w) (library_dirs w) (libraries w) (dotenv_file w)
    (environ w) (cache w) (next_id w) (ui w) c.

(** Updates of one field from its current value. *)
Definition update_folders
    (f : gmap string (gmap string bytes) → gmap string (gmap string bytes))
    (w : World) : World := set_folders (f (folders w)) w.
Definition update_library_dirs (f : gset string → gset string) (w : World)
    : World := set_library_dirs (f (library_dirs w)) w.
Definition update_libraries
    (f : gmap string Collection → gmap string Collection) (w : World) : World :=
  set_libraries (f (libraries w)) w.
Definition update_cache
    (f : gmap string CacheEntry → gmap string CacheEntry) (w : World) : World :=
  set_cache (f (cache w)) w.
Definition update_next_id (f : nat → nat) (w : World) : World :=
  set_next_id (f (next_id w)) w.
Definition update_ui (f : list Element → list Element) (w : World) : World :=
  set_ui (f (ui w)) w.
Definition update_calls (f : list Call → list Call) (w : World) : World :=
  set_calls (f (calls w)) w.

(** The disk of a world, and the world on another disk. *)
Definition disk (w : World) : Disk :=
  mkDisk (folders w) (library_root w) (library_dirs w) (libraries w)
    (dotenv_file w).

Definition set_disk (d : Disk) (w : World) : World :=
  mkWorld (disk_folders d) (disk_library_root d) (disk_library_dirs d)
    (disk_libraries d) (disk_dotenv_file d) (environ w) (cache w) (next_id w)
    (ui w) (calls w).

(** ** Streamlit and operating-system primitives *)

Definition st (e : Element) : M unit := modify (update_ui (λ u, u ++ [e])).

Definition log (c : Call) : M unit :=
  modify (update_calls (λ cs, cs ++ [c])).

(** [with st.spinner(text): body] *)
Definition with_spinner {A} (body_text : string) (body : M A) : M A :=
  st (Spinner body_text);; body.

(** [os.path.exists(path)] for a plain directory *)
Definition os_path_exists (path : string) : M bool :=
  w ← get_world;
  mret (match folders w !! path with Some _ => true | None => false end).

(** [os.makedirs(path)] *)
Definition os_makedirs (path : string) : M unit :=
  w ← get_world;
  match folders w !! path with
  | Some _ => raise (mkExc "FileExistsError" path)
  | None => log (CallMakedirs path);; modify (update_folders (<[path := ∅]>))
  end.

(** [os.listdir(path)] *)
Definition os_listdir (path : string) : M (list string) :=
  w ← get_world;
  match folders w !! path with
  | Some d => mret (fst <$> map_to_list d)
  | None =>
      raise (mkExc "FileNotFoundError"
               ("[Errno 2] No such file or directory: '" +:+ path +:+ "'"))
  end.

(** [os.path.join(a, b)] on POSIX *)
Definition os_path_join (a b : string) : string :=
  if String.prefix "/" b then b
  else if bool_decide (a = "") || String.eqb (String.substring (String.length a - 1) 1 a) "/"
       then a +:+ b
       else a +:+ "/" +:+ b.

(** A plain file name: joined to a folder it names a file of that folder.
    It is not empty, not [.] or [..], and holds neither a separator nor a
    NUL character. *)
Definition plain_name (n : string) : bool :=
  negb (String.eqb n "") && negb (String.eqb n ".") && negb (String.eqb n "..")
  && forallb (λ c, negb (Ascii.eqb c "/"%char) && negb (Ascii.eqb c "000"%char))
       (list_ascii_of_string n).

(** [dotenv.load_dotenv()]: variables already set are kept *)
Definition merge_dotenv (w : World) : World :=
  set_environ (environ w ∪ dotenv_file w) w.

Definition load_dotenv : M unit := modify merge_dotenv.

(** [os.environ.get(key)] *)
Definition os_environ_get (key : string) : M (option string) :=
  w ← get_world; mret (environ w !! key).

(** [st.rerun()] *)
Definition st_rerun {A} : M A := λ w, (RerunRequest, w).

Section Script.

Variable svc : Services.

(** [with open(os.path.join(folder, name), "wb") as f: f.write(data)].
    Under a plain name the file is written into the folder, which must
    exist.  Any other name leads out of the folder or to no file at all:
    what the operating system makes of the path decides. *)
Definition write_file (folder name : string) (data : bytes) : M unit :=
  if plain_name name then
    w ← get_world;
    match folders w !! folder with
    | Some d =>
        log (CallWriteFile folder name);;
        modify (update_folders (<[folder := <[name := data]> d]>))
    | None =>
        raise (mkExc "FileNotFoundError"
                 ("[Errno 2] No such file or directory: '"
                  +:+ os_path_join folder name +:+ "'"))
    end
  else
    w ← get_world;
    match open_elsewhere svc (disk w) (os_path_join folder name) data with
    | inr d => log (CallWriteFile folder name);; modify (set_disk d)
    | inl e => raise e
    end.

(** ** llmware *)

Definition new_library_object (name : string) : M Library :=
  w ← get_world;
  modify (update_next_id S);;
  mret (mkLibrary (next_id w) name).

(** Modelled from the spec: llmware's [Library().load_library(name)], a
    third-party library that is not part of this repository.  Loading a
    collection that exists returns a handle on it, a new Python object;
    "if the collection does not exist, fails with a not found
    condition". *)
Definition load_library (name : string) : M Library :=
  log (CallLoadLibrary name);;
  w ← get_world;
  match libraries w !! name with
  | Some _ => new_library_object name
  | None => raise (mkExc "LibraryNotFoundException" name)
  end.

(** Modelled from the spec: llmware's [Library().create_new_library(name)]:
    "create a fresh empty collection".  Under a name that already has a
    collection llmware creates nothing and returns that collection as it
    is, with its chunks. *)
Definition create_new_library (name : string) : M Library :=
  log (CallCreateNewLibrary name);;
  w ← get_world;
  match libraries w !! name with
  | Some _ => new_library_object name
  | None =>
      modify (update_libraries (<[name := empty_collection]>));;
      new_library_object name
  end.

(** Modelled from the spec: llmware's [library.add_files(
    input_folder_path=..., chunk_size=..., max_chunk_size=...,
    smart_chunking=...)]: "parse every supported file in sourceFolder into
    text, split into chunks"; the chunks are added to those the
    collection holds.  "A failure at any step ... may leave the Collection
    partially built (no rollback is specified)". *)
Definition add_files (library : Library) (input_folder_path : string)
    (chunk_size max_chunk_size smart_chunking : Z) : M unit :=
  log (CallAddFiles (library_name library) input_folder_path);;
  w ← get_world;
  match folders w !! input_folder_path, libraries w !! library_name library with
  | Some files, Some c =>
      let parsed := parse_and_chunk svc (blocks c) files chunk_size
                      max_chunk_size smart_chunking in
      modify (update_libraries
                (<[library_name library :=
                     mkCollection (blocks c ++ parsed.1) (embedding c)]>));;
      raise_if parsed.2
  | None, _ =>
      raise (mkExc "FileNotFoundError"
               ("[Errno 2] No such file or directory: '" +:+ input_folder_path +:+ "'"))
  | _, None => raise (mkExc "LibraryNotFoundException" (library_name library))
  end.

(** Modelled from the spec: llmware's [library.install_new_embedding(
    embedding_model_name=..., vector_db=...)]: "compute an embedding
    vector per chunk using the configured embedding model; persist chunk
    text + vector + source metadata into the vector index"; a failure
    part-way leaves the vectors stored so far. *)
Definition install_new_embedding (library : Library)
    (embedding_model_name vector_db : string) : M unit :=
  log (CallInstallNewEmbedding (library_name library) embedding_model_name vector_db);;
  w ← get_world;
  match libraries w !! library_name library with
  | Some c =>
      let embedded := embed_blocks svc embedding_model_name vector_db (blocks c) in
      modify (update_libraries
                (<[library_name library :=
                     mkCollection (blocks c)
                       (Some (embedding_model_name, embedded.1))]>));;
      raise_if embedded.2
  | None => raise (mkExc "LibraryNotFoundException" (library_name library))
  end.

(** [os.path.join(os.path.expanduser('~'), 'llmware', 'library', name)] *)
Definition library_path (name : string) : string :=
  "~/llmware/library/" +:+ name.

(** [os.path.exists(library_path)] and [shutil.rmtree(library_path)]
    (lines 43-44), for a plain name, as the script's [LIBRARY_NAME] is:
    they test and remove the directory [~/llmware/library/<name>] with all
    it holds.  The collections of llmware are not in it. *)
Definition library_path_exists (name : string) : M bool :=
  w ← get_world;
  mret (bool_decide (name ∈ library_dirs w)).

Definition rmtree_library_path (name : string) : M unit :=
  log (CallRmtree (library_path name));;
  modify (update_library_dirs (λ dirs, dirs ∖ {[name]})).

(** [os.path.exists] and [os.makedirs] on [~/llmware/library] (lines
    26-27). *)

Definition library_root_exists : M bool :=
  w ← get_world; mret (library_root w).

Definition makedirs_library_root : M unit :=
  log (CallMakedirs "~/llmware/library");;
  modify (set_library_root true).

(** ** Backend functions (lines 19-88) *)

(** The body of [setup_library] (lines 24-31). *)
Definition setup_library_body (library_name : string) : M Library :=
  st (Write ("Loading library: " +:+ library_name +:+ "..."));;
  root ← library_root_exists;
  (if negb root then makedirs_library_root else mret tt);;
  library ← load_library library_name;
  st (Success ("Library '" +:+ library_name +:+ "' loaded successfully."));;
  mret library.

(** Modelled from the spec: Streamlit's [@st.cache_resource] decorator,
    which is not part of this repository.  "The loaded Collection handle
    is cached process-wide for the lifetime of the process (keyed by
    collection name) ...; this cache is never invalidated automatically."
    A returned value is stored under the argument, with the elements the
    call rendered; a stored value is returned without running the
    function, its elements replayed.  What is stored is a loaded handle: a
    call that raises stores nothing, and the next request runs the
    function again (the step from NoCollection to Ready after a build
    depends on it).  Nothing in the script clears the store. *)
Definition cache_resource (f : string → M Library) (arg : string) : M Library :=
  λ w,
    match cache w !! arg with
    | Some entry =>
        (Ret (cached_value entry), update_ui (λ u, u ++ cached_elements entry) w)
    | None =>
        match f arg w with
        | (Ret v, w') =>
            (Ret v,
             update_cache
               (<[arg := mkCacheEntry v (drop (length (ui w)) (ui w'))]>) w')
        | r => r
        end
    end.

Definition setup_library : string → M Library :=
  cache_resource setup_library_body.

Definition process_and_embed_files (library_name folder_path : string) : M unit :=
  st (Info ("Creating a new library: '" +:+ library_name
            +:+ "'. This may take a moment..."));;
  there ← library_path_exists library_name;
  (if there : bool then rmtree_library_path library_name else mret tt);;
  library ← create_new_library library_name;
  st (Write ("Parsing and chunking files from: " +:+ folder_path +:+ "..."));;
  add_files library folder_path 400 600 1;;
  st (Write ("Creating embeddings with model: " +:+ EMBEDDING_MODEL +:+ "..."));;
  install_new_embedding library EMBEDDING_MODEL "chromadb";;
  st (Success "Library setup and embedding complete.");;
  st Balloons;;
  st_rerun.

(** [result_count] is [None] when the caller leaves the default. *)
Definition semantic_search (library : Library) (user_query : string)
    (result_count : option Z) : M (list Result) :=
  let result_count := default 20%Z result_count in
  with_spinner ("Performing semantic search for: '" +:+ user_query +:+ "'...")
    (log (CallSemanticQuery library user_query result_count);;
     w ← get_world;
     lift (semantic_query svc (libraries w) library user_query result_count)).

(** [Groq(api_key=api_key)] builds the client and sends nothing; the
    request is sent by [client.chat.completions.create]. *)
Definition ask_groq (user_prompt model : string) : M string :=
  api_key ← os_environ_get "GROQ";
  match api_key with
  | None | Some "" =>
      mret "Error: GROQ environment variable not set. Please add it to your .env file."
  | Some api_key =>
      try_except
        (chat_completion ←
           with_spinner "Calling Groq's LPU to synthesize the answer..."
             (let req := mkChatRequest api_key [mkMessage "user" user_prompt] model in
              log (CallChatCompletions req);;
              lift (chat_completions_create svc req));
         match choices chat_completion with
         | c :: _ => mret (content (message c))
         | [] => raise (mkExc "IndexError" "list index out of range")
         end)
        (λ e, st (Error ("Error during Groq API call: " +:+ exc_str e));; mret "")
  end.

(** ** Frontend (lines 93-176) *)

(** The widget values of one run of the script. *)
Record UploadedFile := mkUploadedFile { name : string; getbuffer : bytes }.

Record Inputs := mkInputs {
  (** [st.file_uploader(...)] *)
  uploaded_files : list UploadedFile;
  (** [st.button("Process & Embed Documents")] *)
  process_clicked : bool;
  (** [st.text_input("Enter your scientific question:", "")] *)
  user_query : string;
  (** [st.button("Get Answer")] *)
  get_answer_clicked : bool
}.

(** Lines 93-99; [st.set_page_config] renders nothing. *)
Definition page_top : M unit :=
  st (Title "🔬 Scientific Research Agent");;
  st (Markdown "Powered by `llmware` for RAG, `Groq` for high-speed inference, and `Streamlit` for the UI.");;
  load_dotenv.

(** Lines 112-121, the upload handler. *)
Definition upload_handler (inp : Inputs) : M unit :=
  match uploaded_files inp with
  | [] => mret tt
  | _ :: _ =>
      there ← os_path_exists RESEARCH_PAPERS_PATH;
      (if negb there then os_makedirs RESEARCH_PAPERS_PATH else mret tt);;
      for_each (uploaded_files inp)
        (λ file, write_file RESEARCH_PAPERS_PATH (name file) (getbuffer file));;
      st (Success (pretty (length (uploaded_files inp))
                   +:+ " file(s) uploaded successfully!"))
  end.

(** Lines 123-128, the handler of the "Process & Embed Documents" button. *)
Definition process_handler (inp : Inputs) : M unit :=
  if process_clicked inp then
    listing ← os_listdir RESEARCH_PAPERS_PATH;
    match listing with
    | [] =>
        st (Warning "No files found in the research_papers folder. Please upload documents first.")
    | _ :: _ => process_and_embed_files LIBRARY_NAME RESEARCH_PAPERS_PATH
    end
  else mret tt.

(** Lines 102-128. *)
Definition sidebar (inp : Inputs) : M unit :=
  st (Header "📚 Document Setup");;
  st (Write "Upload your scientific papers here. The system will process them into a searchable library.");;
  upload_handler inp;;
  process_handler inp.

(** Lines 140-171, the handler of the "Get Answer" button. *)
Definition get_answer_handler (library : Library) (inp : Inputs) : M unit :=
  if get_answer_clicked inp then
    if bool_decide (user_query inp = "") then
      st (Warning "Please enter a question.")
    else
      query_results ← semantic_search library (user_query inp) None;
      match query_results with
      | [] =>
          st (Error "Could not find any relevant information in the provided documents for your query.")
      | _ :: _ =>
          prompt ← lift (final_prompt query_results (user_query inp));
          answer ← ask_groq prompt LLM_MODEL;
          st (Subheader "💡 Answer");;
          st (Markdown answer)
      end
  else mret tt.

(** Lines 132-171, the body of the [try]. *)
Definition main_chat_body (inp : Inputs) : M unit :=
  library ← setup_library LIBRARY_NAME;
  st (Header "❓ Ask a Question");;
  st (Write "Pose a question to the agent based on the documents you provided.");;
  get_answer_handler library inp.

(** Lines 173-176, the [except Exception as e] clause. *)
Definition main_chat_except (e : PyExc) : M unit :=
  st (Error ("Failed to load or find the library: '" +:+ LIBRARY_NAME +:+ "'."));;
  st (Info "Please upload documents and click 'Process & Embed Documents' in the sidebar to create the library.");;
  st (Warning ("Detailed Error: " +:+ exc_str e)).

(** Lines 131-176. *)
Definition main_chat (inp : Inputs) : M unit :=
  try_except (main_chat_body inp) main_chat_except.

(** One run of the script. *)
Definition script (inp : Inputs) : M unit :=
  page_top;;
  sidebar inp;;
  main_chat inp.

(** ** The process: one run per interaction *)

(** A run starts with an empty page. *)
Definition run (inp : Inputs) (w : World) : Outcome unit * World :=
  script inp (set_ui [] w).

(** The run [st.rerun()] asks for: same widget values, no button clicked. *)
Definition rerun_inputs (inp : Inputs) : Inputs :=
  mkInputs (uploaded_files inp) false (user_query inp) false.

(** One interaction: the run it triggers and, when that run asks for a
    rerun, the rerun.  An exception that leaves the script ends the run;
    Streamlit shows it and the process goes on. *)
Definition interaction (inp : Inputs) (w : World) : World :=
  match run inp w with
  | (RerunRequest, w') => snd (run (rerun_inputs inp) w')
  | (_, w') => w'
  end.

Definition session (inps : list Inputs) (w : World) : World :=
  foldl (λ w inp, interaction inp w) w inps.

(** The state of the Session Controller after a run: Ready when the
    collection could be loaded, NoCollection when loading it failed. *)
Inductive ControllerState := NoCollection | Ready.

Definition controller_state (w : World) : ControllerState :=
  match setup_library LIBRARY_NAME w with
  | (Ret _, _) => Ready
  | _ => NoCollection
  end.

End Script.

(** ** The Retrieval Service of the specification *)

(** Ranked results: descending similarity. *)
Definition by_score_desc (a b : Result) : Prop := (score b <= score a)%Q.

#[global] Instance by_score_desc_dec : RelDecision by_score_desc :=
  λ a b,
    match Qlt_le_dec (score a) (score b) with
    | left Hlt => right (Qlt_not_le _ _ Hlt)
    | right Hle => left Hle
    end.

Definition ranked (results : list Result) : Prop :=
  StronglySorted by_score_desc results.

(** Modelled from the spec: llmware's [Query.semantic_query], a third-party
    library that is not part of this repository.  "Embed the query text
    with the same embedding model used at ingestion; compute similarity
    against all stored chunk vectors; return the topN by descending
    similarity.  If the collection has zero chunks, returns an empty
    sequence.  If the collection does not exist, fails with a not found
    condition."  "Retrieval against a non-existent or partially-built
    collection must fail cleanly rather than return undefined results":
    a collection that is not fully embedded is refused.  The embedding of
    a text and the similarity metric stay parameters. *)
Definition scored_chunks (embed_text : string → Vector)
    (similarity : Vector → Vector → Q) (c : Collection) (query : string)
    : list Result :=
  let query_vector := embed_text query in
  zip_with (λ b v, mkResult (block_text b) (similarity query_vector v)
                     (block_source b))
    (blocks c) (from_option snd [] (embedding c)).

Definition spec_semantic_query (embed_text : string → Vector)
    (similarity : Vector → Vector → Q) (libs : gmap string Collection)
    (library : Library) (query : string) (topN : Z) : PyExc + list Result :=
  match libs !! library_name library with
  | None => inl (mkExc "LibraryNotFoundException" (library_name library))
  | Some c =>
      if fully_embedded c then
        inr (take (Z.to_nat topN)
               (merge_sort by_score_desc
                  (scored_chunks embed_text similarity c query)))
      else
        inl (mkExc "EmbeddingNotFoundException" (library_name library))
  end.

(** ** Vocabulary of the properties *)

(** A collection embedded under the configured model: its chunks and
    their vectors. *)
Definition built_collection (bs : list Block) (vs : list Vector) : Collection :=
  mkCollection bs (Some (EMBEDDING_MODEL, vs)).

(** The chunks the collection [lib] holds, none when there is no such
    collection. *)
Definition previous_blocks (lib : string) (w : World) : list Block :=
  from_option blocks [] (libraries w !! lib).

(** The llmware calls of one build, in order. *)
Definition build_calls (lib folder : string) : list Call :=
  [CallCreateNewLibrary lib; CallAddFiles lib folder;
   CallInstallNewEmbedding lib EMBEDDING_MODEL "chromadb"].

(** What the build button renders on an empty corpus folder, and what
    [os.listdir] raises on a missing one. *)
Definition no_files_warning : Element :=
  Warning "No files found in the research_papers folder. Please upload documents first.".

Definition missing_folder_error : PyExc :=
  mkExc "FileNotFoundError" "[Errno 2] No such file or directory: './research_papers'".

(** What the top-level handler renders for the exception [e]. *)
Definition rebuild_guidance (e : PyExc) : list Element :=
  [Error "Failed to load or find the library: 'scientific_papers_lib'.";
   Info "Please upload documents and click 'Process & Embed Documents' in the sidebar to create the library.";
   Warning ("Detailed Error: " +:+ exc_str e)].

(** How many times [load_library] ran for a name. *)
Fixpoint load_count (name : string) (cs : list Call) : nat :=
  match cs with
  | [] => 0
  | CallLoadLibrary n :: rest =>
      (if String.eqb n name then 1 else 0) + load_count name rest
  | _ :: rest => load_count name rest
  end.

(** [stable R m]: whatever world [m] starts in and however it ends, the
    world it ends in is related by [R] to the one it started in. *)
Definition stable {A} (R : relation World) (m : M A) : Prop :=
  ∀ w, R w (m w).2.

(** [never_reruns m]: [m] returns or raises, it never ends in the rerun
    request of [st.rerun()]. *)
Definition never_reruns {A} (m : M A) : Prop := ∀ w, (m w).1 ≠ RerunRequest.

(** The page only grows. *)
Definition ui_grows (w w' : World) : Prop := ∃ more, ui w' = ui w ++ more.

(** Once [name] has an entry, the entry stays and [load_library] does not
    run for [name] again. *)
Definition keeps_entry (name : string) (entry : CacheEntry) (w w' : World) : Prop :=
  cache w !! name = Some entry →
  cache w' !! name = Some entry
  ∧ load_count name (calls w') = load_count name (calls w).

(** ** A concrete deployment, for running the model *)

Module Demo.

(** One chunk per file; a text is embedded as its length; two vectors are
    the more similar the closer their first coordinates. *)
Definition embed_text (s : string) : Vector := [inject_Z (Z.of_nat (String.length s))].

Definition similarity (u v : Vector) : Q :=
  match u, v with
  | x :: _, y :: _ => (- Qabs (x - y))%Q
  | _, _ => 0%Q
  end.

Definition parse_and_chunk (_ : list Block) (files : gmap string bytes)
    (_ _ _ : Z) : list Block * option PyExc :=
  ((λ f, mkBlock (string_of_list_byte f.2) f.1) <$> map_to_list files, None).

Definition embed_blocks (_ _ : string) (bs : list Block)
    : list Vector * option PyExc :=
  ((λ b, embed_text (block_text b)) <$> bs, None).

(** A file system without subdirectories: a path that leads out of the
    folder names no file. *)
Definition open_elsewhere (d : Disk) (path : string) (data : bytes)
    : PyExc + Disk :=
  inl (mkExc "FileNotFoundError"
         ("[Errno 2] No such file or directory: '" +:+ path +:+ "'")).

(** A text-generation endpoint that answers every request. *)
Definition chat_ok (req : ChatRequest) : PyExc + ChatCompletion :=
  inr (mkChatCompletion [mkChoice (mkMessage "assistant" "42")]).

(** A text-generation endpoint that is unreachable. *)
Definition chat_down (req : ChatRequest) : PyExc + ChatCompletion :=
  inl (mkExc "APIConnectionError" "Connection error.").

Definition services : Services :=
  mkServices parse_and_chunk embed_blocks
    (spec_semantic_query embed_text similarity) chat_ok open_elsewhere.

Definition services_offline : Services :=
  mkServices parse_and_chunk embed_blocks
    (spec_semantic_query embed_text similarity) chat_down open_elsewhere.

(** A new process on a machine with nothing on disk. *)
Definition fresh : World := mkWorld ∅ false ∅ ∅ ∅ ∅ ∅ 0 [] [].

Definition with_key (w : World) : World :=
  set_environ (<["GROQ" := "gsk_test"]> (environ w)) w.

Definition paper (file_name body : string) : UploadedFile :=
  mkUploadedFile file_name (list_byte_of_string body).

Definition papers : list UploadedFile :=
  [paper "a.txt" "the boiling point of water is 100C"; paper "b.txt" "short"].

Definition other_papers : list UploadedFile :=
  [paper "c.txt" "ice melts at 0C"].

(** The corpus folder that holds exactly these files. *)
Definition corpus (files : list UploadedFile) : gmap string bytes :=
  list_to_map ((λ f, (name f, getbuffer f)) <$> files).

Definition idle : Inputs := mkInputs [] false "" false.
Definition upload (files : list UploadedFile) : Inputs := mkInputs files false "" false.
Definition build : Inputs := mkInputs [] true "" false.
Definition ask (q : string) : Inputs := mkInputs [] false q true.

(** The corpus folder exists and is empty; nothing else is on disk. *)
Definition empty_folder : World :=
  set_folders {[RESEARCH_PAPERS_PATH := ∅]} fresh.

(** The papers are uploaded, no collection is built yet. *)
Definition uploaded : World := session services [upload papers] (with_key fresh).

(** The collection is built and its handle is in the cache. *)
Definition ready : World := session services [build] uploaded.

(** A collection without chunks. *)
Definition unbuilt : World :=
  set_libraries {[LIBRARY_NAME := empty_collection]} (with_key fresh).

Definition handle : Library := mkLibrary 1 LIBRARY_NAME.

(** What the parser makes of the two sets of papers. *)
Definition blocks_of_papers : list Block :=
  [mkBlock "the boiling point of water is 100C" "a.txt"; mkBlock "short" "b.txt"].

Definition blocks_of_other_papers : list Block :=
  [mkBlock "ice melts at 0C" "c.txt"].

(** More papers are uploaded, the collection is rebuilt, a question is
    asked. *)
Definition later_session : list Inputs :=
  [upload other_papers; build; ask "melting"].

End Demo.


(** ** Vocabulary of the further properties *)

(** How many text-generation requests were sent. *)
Fixpoint chat_count (cs : list Call) : nat :=
  match cs with
  | [] => 0
  | CallChatCompletions _ :: rest => S (chat_count rest)
  | _ :: rest => chat_count rest
  end.


(** [never_returns m]: [m] ends by raising or by asking for a rerun. *)
Definition never_returns {A} (m : M A) : Prop := ∀ w a, (m w).1 ≠ Ret a.

(** [load_library] has run as often for the name. *)
Definition same_loads (name : string) (w w' : World) : Prop :=
  load_count name (calls w') = load_count name (calls w).

(** The folders are the same. *)
Definition same_folders (w w' : World) : Prop := folders w' = folders w.

(** As many text-generation requests have been sent. *)
Definition same_chats (w w' : World) : Prop :=
  chat_count (calls w') = chat_count (calls w).

(** [m] sends at most one text-generation request. *)
Definition at_most_one_chat {A} (m : M A) : Prop :=
  ∀ w, chat_count (calls (m w).2) ≤ chat_count (calls w) + 1.

(** [returns P m]: a value [m] returns satisfies [P]. *)
Definition returns {A} (P : A → Prop) (m : M A) : Prop :=
  ∀ w a w', m w = (Ret a, w') → P a.

(** Every uploaded file has a plain name. *)
Definition plain_uploads (inp : Inputs) : Prop :=
  Forall (λ file, plain_name (name file) = true) (uploaded_files inp).

(** The embedding the collection [lib] holds, if any. *)
Definition previous_embedding (lib : string) (w : World)
    : option (string * list Vector) :=
  libraries w !! lib ≫= embedding.

(** What a build renders before it parses, and before it embeds. *)
Definition build_start (lib folder : string) : list Element :=
  [Info ("Creating a new library: '" +:+ lib +:+ "'. This may take a moment...");
   Write ("Parsing and chunking files from: " +:+ folder +:+ "...")].

Definition embedding_start : Element :=
  Write ("Creating embeddings with model: " +:+ EMBEDDING_MODEL +:+ "...").

(** The collections and the directories under [~/llmware/library] are
    the same, and [~/llmware/library] is still there if it was. *)
Definition storage_kept (w w' : World) : Prop :=
  libraries w' = libraries w
  ∧ library_dirs w' = library_dirs w
  ∧ (library_root w = true → library_root w' = true).

(** The script keeps to its own: every collection under another name and
    every folder other than the corpus folder is as it was; a file name
    present in the corpus folder is still present; under
    [~/llmware/library] no directory has appeared and none but the one
    named after the collection has gone; [~/llmware/library] is still
    there if it was; the [.env] file is as it was. *)
Definition confined (w w' : World) : Prop :=
  (∀ n, n ≠ LIBRARY_NAME → libraries w' !! n = libraries w !! n)
  ∧ (∀ p, p ≠ RESEARCH_PAPERS_PATH → folders w' !! p = folders w !! p)
  ∧ (∀ d n, folders w !! RESEARCH_PAPERS_PATH = Some d → is_Some (d !! n) →
       ∃ d', folders w' !! RESEARCH_PAPERS_PATH = Some d' ∧ is_Some (d' !! n))
  ∧ library_dirs w ∖ {[LIBRARY_NAME]} ⊆ library_dirs w'
  ∧ library_dirs w' ⊆ library_dirs w
  ∧ (library_root w = true → library_root w' = true)
  ∧ dotenv_file w' = dotenv_file w.

(** The spinner of [semantic_search]. *)
Definition search_spinner (q : string) : Element :=
  Spinner ("Performing semantic search for: '" +:+ q +:+ "'...").

(** ** Further deployments *)

Module Scenario.

(** A text-generation endpoint whose responses hold no choice. *)
Definition chat_mute (req : ChatRequest) : PyExc + ChatCompletion :=
  inr (mkChatCompletion []).

Definition services_mute : Services :=
  mkServices Demo.parse_and_chunk Demo.embed_blocks
    (spec_semantic_query Demo.embed_text Demo.similarity) chat_mute
    Demo.open_elsewhere.

(** A parser that cannot read the files, an embedding model that cannot
    be loaded. *)
Definition parse_error : PyExc := mkExc "ValueError" "cannot parse a.txt".
Definition model_error : PyExc := mkExc "OSError" "cannot load the embedding model".

Definition services_unreadable : Services :=
  mkServices (λ _ _ _ _ _, ([], Some parse_error)) Demo.embed_blocks
    (spec_semantic_query Demo.embed_text Demo.similarity) Demo.chat_ok
    Demo.open_elsewhere.

Definition services_no_model : Services :=
  mkServices Demo.parse_and_chunk (λ _ _ _, ([], Some model_error))
    (spec_semantic_query Demo.embed_text Demo.similarity) Demo.chat_ok
    Demo.open_elsewhere.

(** The [GROQ] variable is set to the empty string. *)
Definition empty_key : World := set_environ {["GROQ" := ""]} Demo.fresh.

(** The collection is built and loaded; the credential is gone. *)
Definition no_key : World := set_environ ∅ Demo.ready.

(** The handle is in the cache; the collection has been removed from
    llmware from outside. *)
Definition lost : World := set_libraries ∅ Demo.ready.

Definition cached : CacheEntry :=
  mkCacheEntry Demo.handle
    [Write "Loading library: scientific_papers_lib...";
     Success "Library 'scientific_papers_lib' loaded successfully."].

(** The collection is built from the first papers and the directory
    [~/llmware/library/scientific_papers_lib] exists; the corpus folder
    now holds the other papers and nothing else.  Then the build runs. *)
Definition before_rebuild : World :=
  set_library_dirs {[LIBRARY_NAME]}
    (set_folders {[RESEARCH_PAPERS_PATH := Demo.corpus Demo.other_papers]}
       Demo.ready).

Definition rebuild : Outcome unit * World :=
  process_and_embed_files Demo.services LIBRARY_NAME RESEARCH_PAPERS_PATH
    before_rebuild.

(** The chunks of the papers are in the collection, their vectors are
    not: a build has stopped between the two. *)
Definition half_built : World :=
  set_libraries {[LIBRARY_NAME := mkCollection Demo.blocks_of_papers None]}
    (Demo.with_key Demo.fresh).


Definition short_result : Result := mkResult "short" (-2) "b.txt".
Definition long_result : Result :=
  mkResult "the boiling point of water is 100C" (-27) "a.txt".

Definition answer : Choice := mkChoice (mkMessage "assistant" "42").

Definition question : string := "What is the boiling point of water?".

End Scenario.


(** * Properties *)

(** ** Prompt assembly *)

Section Format.

Variable kwargs : gmap string string.

Lemma append_assoc (a b c : string) : (a +:+ b) +:+ c = a +:+ (b +:+ c).
Proof.
  induction a as [|x a IH]; [reflexivity|].
  change (String x ((a +:+ b) +:+ c) = String x (a +:+ b +:+ c)).
  now rewrite IH.
Qed.

Lemma append_empty_r (a : string) : a +:+ "" = a.
Proof.
  induction a as [|x a IH]; [reflexivity|].
  change (String x (a +:+ "") = String x a). now rewrite IH.
Qed.

Lemma brace_free_cons c s :
  brace_free (String c s) = true →
  Ascii.eqb c "{" = false ∧ Ascii.eqb c "}" = false ∧ brace_free s = true.
Proof.
  simpl. rewrite !andb_true_iff, !negb_true_iff. tauto.
Qed.

(** Literal text is copied to the output. *)
Lemma format_literal lit rest :
  brace_free lit = true →
  format_aux kwargs None (lit +:+ rest)
  = map_ok (String.append lit) (format_aux kwargs None rest).
Proof.
  induction lit as [|c lit IH]; intros Hfree.
  - change ("" +:+ rest) with rest.
    now destruct (format_aux kwargs None rest).
  - apply brace_free_cons in Hfree as (Hl & Hr & Hfree).
    change (String c lit +:+ rest) with (String c (lit +:+ rest)).
    cbn [format_aux]. rewrite Hl, Hr, (IH Hfree).
    now destruct (format_aux kwargs None rest).
Qed.

(** Inside a field the name is read up to the closing brace. *)
Lemma format_field_name acc nm rest :
  brace_free nm = true →
  format_aux kwargs (Some acc) (nm +:+ String "}" rest)
  = format_aux kwargs (Some (acc +:+ nm)) (String "}" rest).
Proof.
  revert acc. induction nm as [|c nm IH]; intros acc Hfree.
  - change ("" +:+ String "}" rest) with (String "}" rest).
    now rewrite append_empty_r.
  - apply brace_free_cons in Hfree as (_ & Hr & Hfree).
    change (String c nm +:+ String "}" rest)
      with (String c (nm +:+ String "}" rest)).
    cbn [format_aux]. rewrite Hr, (IH _ Hfree).
    rewrite append_assoc. reflexivity.
Qed.

(** A replacement field is replaced by the keyword argument of its name,
    and scanning goes on after the field: the value is not scanned. *)
Lemma format_field nm v rest :
  brace_free nm = true → nm ≠ "" → kwargs !! nm = Some v →
  format_aux kwargs None (String "{" (nm +:+ String "}" rest))
  = map_ok (String.append v) (format_aux kwargs None rest).
Proof.
  intros Hfree Hne Hv.
  destruct nm as [|c nm]; [congruence|].
  apply brace_free_cons in Hfree as (Hl & Hr & Hfree).
  change (String c nm +:+ String "}" rest)
    with (String c (nm +:+ String "}" rest)).
  cbn [format_aux]. rewrite Ascii.eqb_refl, Hl, Hr.
  change ("" +:+ String c "") with (String c "").
  rewrite (format_field_name _ _ _ Hfree).
  cbn [format_aux]. rewrite Ascii.eqb_refl.
  change (String c "" +:+ nm) with (String c nm).
  cbn [String.eqb]. rewrite Hv. reflexivity.
Qed.

End Format.

Lemma take_min_length {A} (n : nat) (l : list A) :
  take (n `min` length l) l = take n l.
Proof.
  destruct (Nat.le_ge_cases n (length l)) as [Hle | Hge].
  - now rewrite Nat.min_l.
  - rewrite Nat.min_r by assumption. now rewrite !take_ge.
Qed.

(** The value of [final_prompt]: the template with its two fields filled
    in, the texts of the first seven results between lines of dashes. *)
Lemma final_prompt_value (query_results : list Result) (user_query : string) :
  final_prompt query_results user_query
  = inr (prompt_head +:+ context_of query_results +:+ prompt_middle
         +:+ user_query +:+ prompt_tail).
Proof.
  unfold final_prompt, format.
  generalize (context_of query_results) as context. intros context.
  set (kwargs := <["context" := context]> (<["query" := user_query]> ∅)).
  assert (Hc : kwargs !! "context" = Some context) by apply lookup_insert_eq.
  assert (Hq : kwargs !! "query" = Some user_query).
  { unfold kwargs. rewrite lookup_insert_ne by discriminate. apply lookup_insert_eq. }
  clearbody kwargs.
  change prompt_template with
    (prompt_head +:+ String "{" ("context" +:+ String "}"
       (prompt_middle +:+ String "{" ("query" +:+ String "}"
          (prompt_tail +:+ ""))))).
  rewrite format_literal by reflexivity.
  rewrite (format_field kwargs "context" context) by (reflexivity || discriminate || assumption).
  rewrite format_literal by reflexivity.
  rewrite (format_field kwargs "query" user_query) by (reflexivity || discriminate || assumption).
  rewrite format_literal by reflexivity.
  cbn [format_aux map_ok]. now rewrite append_empty_r.
Qed.

(** C1.  The prompt is the instruction template with its [{context}]
    field replaced by the texts of the first [min 7 (length results)]
    results, in rank order, joined by a line of three dashes, and its
    [{query}] field replaced by the query as it was typed; this holds for
    every result list, so for every non-empty one. *)
Theorem final_prompt_fills_template (query_results : list Result) (user_query : string) :
  prompt_template
    = prompt_head +:+ "{context}" +:+ prompt_middle +:+ "{query}" +:+ prompt_tail
  ∧ context_separator = String "010" ("---" +:+ String "010" "")
  ∧ final_prompt query_results user_query
    = inr (prompt_head
           +:+ join context_separator
                 (text <$> take (7 `min` length query_results) query_results)
           +:+ prompt_middle +:+ user_query +:+ prompt_tail).
Proof.
  split; [reflexivity|]. split; [reflexivity|].
  rewrite take_min_length. apply final_prompt_value.
Qed.

(** ** Running the script *)

Ltac unfold_m :=
  unfold st, log, with_spinner, os_path_exists, os_makedirs, os_listdir,
    write_file, os_environ_get, load_dotenv, st_rerun, try_except, lift,
    raise_if, raise, modify, get_world in *.

Ltac world_simpl :=
  cbn [folders library_root library_dirs libraries dotenv_file environ cache
       next_id ui calls set_folders set_library_root set_library_dirs
       set_libraries set_environ set_cache set_next_id set_ui set_calls
       set_disk update_folders update_library_dirs update_libraries
       update_cache update_next_id update_ui update_calls merge_dotenv] in *.

Ltac run_m :=
  repeat progress
    (unfold_m; unfold mbind, mret, M_bind, M_ret in *;
     cbv beta iota zeta in *);
  world_simpl.

(** C3.  Without a [GROQ] variable in the environment, [ask_groq] returns
    the fixed error string; it does not raise, renders nothing and calls
    nothing: the world is the one it started in. *)
Theorem ask_groq_without_credential (svc : Services) (user_prompt model : string) (w : World) :
  environ w !! "GROQ" = None →
  ask_groq svc user_prompt model w
  = (Ret "Error: GROQ environment variable not set. Please add it to your .env file.", w).
Proof.
  intros Hkey. unfold ask_groq. run_m. rewrite Hkey. reflexivity.
Qed.

Ltac world_eq w :=
  destruct w; unfold update_ui, update_calls, update_folders,
    update_libraries, update_cache, update_next_id, merge_dotenv, set_ui,
    set_calls, set_folders, set_libraries, set_library_root, set_cache,
    set_environ, set_next_id;
  cbn; rewrite <- ?app_assoc; reflexivity.

(** C4.  With a credential in the environment, a text-generation call that
    raises is caught inside [ask_groq]: the error is rendered and the
    empty string is returned.  One request was sent and nothing else
    changed. *)
Theorem ask_groq_api_failure (svc : Services) (user_prompt model key : string)
    (e : PyExc) (w : World) :
  let req := mkChatRequest key [mkMessage "user" user_prompt] model in
  environ w !! "GROQ" = Some key →
  key ≠ "" →
  chat_completions_create svc req = inl e →
  ask_groq svc user_prompt model w
  = (Ret "",
     set_ui (ui w ++ [Spinner "Calling Groq's LPU to synthesize the answer...";
                      Error ("Error during Groq API call: " +:+ exc_str e)])
       (set_calls (calls w ++ [CallChatCompletions req]) w)).
Proof.
  intros req Hkey Hne Hfail. unfold ask_groq. run_m. rewrite Hkey.
  destruct key as [|c key]; [congruence|].
  fold req. rewrite Hfail. f_equal. world_eq w.
Qed.

(** C6.  When retrieval returns no result, the "Get Answer" handler renders
    the "no relevant information" error and stops: no prompt is assembled,
    [ask_groq] is not entered, no text-generation request is sent.  The
    only call made is the retrieval itself. *)
Theorem empty_retrieval_short_circuits (svc : Services) (library : Library)
    (inp : Inputs) (w : World) :
  get_answer_clicked inp = true →
  user_query inp ≠ "" →
  semantic_query svc (libraries w) library (user_query inp) 20 = inr [] →
  get_answer_handler svc library inp w
  = (Ret tt,
     set_ui (ui w ++ [Spinner ("Performing semantic search for: '"
                               +:+ user_query inp +:+ "'...");
                      Error "Could not find any relevant information in the provided documents for your query."])
       (set_calls (calls w ++ [CallSemanticQuery library (user_query inp) 20]) w)).
Proof.
  intros Hclick Hq Hempty. unfold get_answer_handler, semantic_search.
  rewrite Hclick, bool_decide_eq_false_2 by assumption.
  run_m. cbn [default].
  rewrite Hempty. f_equal. world_eq w.
Qed.

(** When retrieval returns results and a credential is set, the one
    request sent to the text-generation service carries the prompt of
    [final_prompt] as its single user message, under the configured
    model. *)
Lemma get_answer_sends_final_prompt (svc : Services) (library : Library)
    (inp : Inputs) (w : World) (r : Result) (rs : list Result) (key : string) :
  get_answer_clicked inp = true →
  user_query inp ≠ "" →
  semantic_query svc (libraries w) library (user_query inp) 20 = inr (r :: rs) →
  environ w !! "GROQ" = Some key →
  key ≠ "" →
  calls (get_answer_handler svc library inp w).2
  = calls w
    ++ [CallSemanticQuery library (user_query inp) 20;
        CallChatCompletions
          (mkChatRequest key
             [mkMessage "user"
                (prompt_head +:+ context_of (r :: rs) +:+ prompt_middle
                 +:+ user_query inp +:+ prompt_tail)]
             LLM_MODEL)].
Proof.
  intros Hclick Hq Hrs Hkey Hne.
  unfold get_answer_handler, semantic_search, ask_groq.
  rewrite Hclick, bool_decide_eq_false_2 by assumption.
  run_m. cbn [default]. rewrite Hrs. run_m.
  rewrite final_prompt_value. run_m. rewrite Hkey.
  destruct key as [|k key]; [congruence|]. run_m.
  destruct (chat_completions_create svc _) as [e | [[|c cs]]];
    repeat (run_m; cbn [choices snd]); rewrite <- ?app_assoc; reflexivity.
Qed.

(** ** Building the collection *)

(** A build whose parsing and embedding succeed runs to its [st.rerun()].
    It has removed the directory [~/llmware/library/<lib>] if there was
    one, then asked llmware for the collection, then added the files.  The
    collection it leaves holds the chunks it held before the build,
    followed by the chunks of the folder, with the vectors of them all. *)
Lemma process_and_embed_files_builds (svc : Services) (lib folder : string)
    (w : World) files bs vs :
  folders w !! folder = Some files →
  parse_and_chunk svc (previous_blocks lib w) files 400 600 1 = (bs, None) →
  embed_blocks svc EMBEDDING_MODEL "chromadb" (previous_blocks lib w ++ bs)
  = (vs, None) →
  ∃ w', process_and_embed_files svc lib folder w = (RerunRequest, w')
    ∧ libraries w'
      = <[lib := built_collection (previous_blocks lib w ++ bs) vs]> (libraries w)
    ∧ folders w' = folders w
    ∧ library_dirs w' = library_dirs w ∖ {[lib]}
    ∧ cache w' = cache w
    ∧ calls w'
      = calls w
        ++ (if bool_decide (lib ∈ library_dirs w)
            then [CallRmtree (library_path lib)] else [])
        ++ build_calls lib folder.
Proof.
  intros Hfolder Hparse Hembed.
  unfold process_and_embed_files, library_path_exists, rmtree_library_path,
    create_new_library, add_files, install_new_embedding, new_library_object.
  unfold previous_blocks in *.
  destruct (libraries w !! lib) as [old|] eqn:Hold;
    cbn [from_option app] in Hembed, Hparse;
    destruct (bool_decide (lib ∈ library_dirs w)) eqn:Hdir;
    repeat (run_m;
            rewrite ?Hold, ?Hdir, ?Hfolder, ?Hparse, ?Hembed, ?lookup_insert_eq;
            cbn [library_name blocks embedding empty_collection app fst snd]);
    (eexists; split; [reflexivity|]); world_simpl;
    rewrite ?insert_insert_eq, <- ?app_assoc;
    (split_and!; try done).
  all: apply bool_decide_eq_false_1 in Hdir; symmetry;
    apply difference_disjoint_L; set_solver.
Qed.

(** C2, as the script has it.  The collection has been built from two
    papers and the directory [~/llmware/library/scientific_papers_lib]
    exists; the corpus folder now holds one other paper.  The build
    removes that directory, and the collection survives it: llmware hands
    the existing collection back and the chunks of the new paper are added
    to those of the first build.  The collection is no function of the
    second corpus alone. *)
Theorem rebuild_keeps_first_build :
  libraries Scenario.before_rebuild !! LIBRARY_NAME
  = Some (built_collection Demo.blocks_of_papers [[34%Q]; [5%Q]])
  ∧ library_dirs Scenario.before_rebuild = {[LIBRARY_NAME]}
  ∧ folders Scenario.before_rebuild !! RESEARCH_PAPERS_PATH
    = Some (Demo.corpus Demo.other_papers)
  ∧ Scenario.rebuild.1 = RerunRequest
  ∧ calls Scenario.rebuild.2
    = calls Scenario.before_rebuild
      ++ CallRmtree "~/llmware/library/scientific_papers_lib"
         :: build_calls LIBRARY_NAME RESEARCH_PAPERS_PATH
  ∧ library_dirs Scenario.rebuild.2 = ∅
  ∧ libraries Scenario.rebuild.2 !! LIBRARY_NAME
    = Some (built_collection
              (Demo.blocks_of_papers ++ Demo.blocks_of_other_papers)
              [[34%Q]; [5%Q]; [15%Q]])
  ∧ libraries Scenario.rebuild.2 !! LIBRARY_NAME
    ≠ Some (built_collection Demo.blocks_of_other_papers [[15%Q]]).
Proof.
  split_and!; try (vm_compute; reflexivity).
  vm_compute. discriminate.
Qed.

(** ** Retrieval *)

#[local] Instance by_score_desc_trans : Transitive by_score_desc.
Proof. intros a b c Hab Hbc. unfold by_score_desc in *. eapply Qle_trans; eauto. Qed.

#[local] Instance by_score_desc_total : Total by_score_desc.
Proof.
  intros a b. unfold by_score_desc.
  destruct (Qlt_le_dec (score a) (score b)) as [Hlt | Hle]; [right | left].
  - now apply Qlt_le_weak.
  - exact Hle.
Qed.

Lemma ranked_take (n : nat) (rs : list Result) : ranked rs → ranked (take n rs).
Proof.
  unfold ranked. intros Hrs. rewrite <- (take_drop n rs) in Hrs.
  now apply StronglySorted_app_1_l in Hrs.
Qed.

(** The Retrieval Service of the specification returns at most [topN]
    results, ranked. *)
Lemma spec_semantic_query_ranked embed_text similarity libs library query topN rs :
  spec_semantic_query embed_text similarity libs library query topN = inr rs →
  ranked rs ∧ length rs ≤ Z.to_nat topN.
Proof.
  unfold spec_semantic_query.
  destruct (libs !! library_name library) as [c|]; [|discriminate].
  destruct (fully_embedded c); [|discriminate].
  intros [= <-]. split.
  - apply ranked_take, StronglySorted_merge_sort; apply _.
  - rewrite length_take. lia.
Qed.




(** ** Relations every step of a computation keeps *)

Section Stable.

Context (R : relation World) `{!PreOrder R}.

Lemma stable_ret {A} (a : A) : stable R (mret a).
Proof. intros w. reflexivity. Qed.

Lemma stable_raise {A} (e : PyExc) : stable R (raise (A:=A) e).
Proof. intros w. reflexivity. Qed.

Lemma stable_rerun {A} : stable R (st_rerun (A:=A)).
Proof. intros w. reflexivity. Qed.

Lemma stable_get_world : stable R get_world.
Proof. intros w. reflexivity. Qed.

Lemma stable_lift {A} (r : PyExc + A) : stable R (lift r).
Proof. destruct r; intros w; reflexivity. Qed.

Lemma stable_raise_if (failure : option PyExc) : stable R (raise_if failure).
Proof. destruct failure; intros w; reflexivity. Qed.

Lemma stable_modify (f : World → World) : (∀ w, R w (f w)) → stable R (modify f).
Proof. intros Hf w. apply Hf. Qed.

Lemma stable_bind {A B} (m : M A) (f : A → M B) :
  stable R m → (∀ a, stable R (f a)) → stable R (m ≫= f).
Proof.
  intros Hm Hf w. specialize (Hm w). unfold mbind, M_bind.
  destruct (m w) as [[a | e |] w1]; cbn [snd] in *; [|assumption..].
  etransitivity; [exact Hm | apply Hf].
Qed.

Lemma stable_try_except {A} (body : M A) (handler : PyExc → M A) :
  stable R body → (∀ e, stable R (handler e)) → stable R (try_except body handler).
Proof.
  intros Hm Hf w. specialize (Hm w). unfold try_except.
  destruct (body w) as [[a | e |] w1]; cbn [snd] in *; [assumption| |assumption].
  etransitivity; [exact Hm | apply Hf].
Qed.

Lemma stable_for_each {A} (xs : list A) (body : A → M unit) :
  (∀ x, stable R (body x)) → stable R (for_each xs body).
Proof.
  intros Hbody. induction xs as [|x xs IH]; cbn [for_each].
  - apply stable_ret.
  - apply stable_bind; [apply Hbody | intros _; exact IH].
Qed.

Lemma stable_for_each_Forall {A} (P : A → Prop) (xs : list A) (body : A → M unit) :
  Forall P xs → (∀ x, P x → stable R (body x)) → stable R (for_each xs body).
Proof.
  intros Hxs Hbody. induction Hxs as [|x xs Hx Hxs IH]; cbn [for_each].
  - apply stable_ret.
  - apply stable_bind; [apply Hbody, Hx | intros _; exact IH].
Qed.

End Stable.

(** Breaks a computation into its steps; [solve_step] proves the relation
    for one update of the world. *)
Ltac preorder_goal :=
  lazymatch goal with
  | |- PreOrder _ => typeclasses eauto
  | _ => idtac
  end.

Ltac stable_with solve_step :=
  repeat first
    [ apply stable_ret; preorder_goal
    | apply stable_raise; preorder_goal
    | apply stable_rerun; preorder_goal
    | apply stable_get_world; preorder_goal
    | apply stable_lift; preorder_goal
    | apply stable_raise_if; preorder_goal
    | apply stable_bind; preorder_goal; [|intros ?]
    | apply stable_try_except; preorder_goal; [|intros ?]
    | apply stable_for_each; preorder_goal; intros ?
    | apply stable_modify; intros ?; solve_step
    | match goal with
      | |- stable _ (match ?x with _ => _ end) => destruct x
      end
    | progress unfold st, log, with_spinner, os_path_exists, os_makedirs,
        os_listdir, write_file, os_environ_get, load_dotenv,
        new_library_object, load_library, create_new_library, add_files,
        install_new_embedding, library_path_exists, rmtree_library_path,
        library_root_exists, makedirs_library_root ].

#[local] Instance ui_grows_preorder : PreOrder ui_grows.
Proof.
  split.
  - intros w. exists []. now rewrite app_nil_r.
  - intros w1 w2 w3 [m1 H1] [m2 H2]. exists (m1 ++ m2).
    now rewrite H2, H1, app_assoc.
Qed.

Ltac ui_step := world_simpl; solve [eexists; reflexivity | exists []; now rewrite app_nil_r].

Lemma ui_first {A} (e : Element) (k : M A) (w : World) :
  stable ui_grows k → ∃ more, ui ((st e;; k) w).2 = ui w ++ e :: more.
Proof.
  intros Hk. run_m.
  destruct (Hk (set_ui (ui w ++ [e]) w)) as [more Hmore].
  exists more. destruct (k _) as [[] w']; cbn [snd] in *; world_simpl;
    now rewrite Hmore, <- app_assoc.
Qed.

Lemma process_and_embed_files_ui (svc : Services) (lib folder : string) (w : World) :
  ∃ more,
    ui (process_and_embed_files svc lib folder w).2
    = ui w ++ Info ("Creating a new library: '" +:+ lib
                    +:+ "'. This may take a moment...") :: more.
Proof.
  unfold process_and_embed_files. apply ui_first. stable_with ui_step.
Qed.

(** ** The build button *)

Lemma map_to_list_nil_inv {A} (m : gmap string A) :
  fst <$> map_to_list m = [] → m = ∅.
Proof.
  intros H. apply fmap_nil_inv in H. now apply map_to_list_empty_iff.
Qed.

(** C10.  With no corpus folder on disk, the click on the build button
    makes [os.listdir] raise [FileNotFoundError]: no warning is rendered,
    no build is started, and, nothing having been uploaded in the run,
    the error leaves the sidebar.  The handler renders the no-files
    warning only when the folder exists (and is empty). *)
Theorem build_without_folder_raises (svc : Services) (inp : Inputs) (w : World) :
  process_clicked inp = true →
  (folders w !! RESEARCH_PAPERS_PATH = None →
   process_handler svc inp w = (Raise missing_folder_error, w)
   ∧ (uploaded_files inp = [] →
      (sidebar svc inp w).1 = Raise missing_folder_error))
  ∧ (ui (process_handler svc inp w).2 = ui w ++ [no_files_warning] →
     folders w !! RESEARCH_PAPERS_PATH = Some ∅).
Proof.
  intros Hclick. split.
  - intros Hnone. split.
    + unfold process_handler. rewrite Hclick. run_m. now rewrite Hnone.
    + intros Hup. unfold sidebar, upload_handler, process_handler.
      rewrite Hup, Hclick. run_m. now rewrite Hnone.
  - unfold process_handler. rewrite Hclick. run_m.
    destruct (folders w !! RESEARCH_PAPERS_PATH) as [d|] eqn:Hd.
    + destruct (fst <$> map_to_list d) as [|f fs] eqn:Hls.
      { intros _. f_equal. now apply map_to_list_nil_inv. }
      destruct (process_and_embed_files_ui svc LIBRARY_NAME
                  RESEARCH_PAPERS_PATH w) as [more ->].
      intros Heq. apply app_inv_head in Heq. discriminate.
    + world_simpl. intros Heq.
      apply (f_equal length) in Heq. rewrite length_app in Heq.
      cbn in Heq. lia.
Qed.

(** ** The state of the controller *)

Lemma controller_state_NoCollection (w : World) :
  controller_state w = NoCollection
  ↔ cache w !! LIBRARY_NAME = None ∧ libraries w !! LIBRARY_NAME = None.
Proof.
  unfold controller_state, setup_library, cache_resource, setup_library_body,
    library_root_exists, makedirs_library_root, load_library, new_library_object.
  destruct (cache w !! LIBRARY_NAME) as [entry|].
  { split; [discriminate | intros [? _]; discriminate]. }
  run_m.
  destruct (library_root w); cbn [negb]; run_m;
    destruct (libraries w !! LIBRARY_NAME); run_m;
    (split; [intros ? | intros [_ ?]]);
    try discriminate; try reflexivity; now split.
Qed.

(** In NoCollection the main chat block tries to load the collection,
    fails and reports it; it creates no collection and leaves the corpus
    folder and the cache as they are. *)
Lemma main_chat_NoCollection (svc : Services) (inp : Inputs) (w : World) :
  cache w !! LIBRARY_NAME = None →
  libraries w !! LIBRARY_NAME = None →
  ∃ w', main_chat svc inp w = (Ret tt, w')
    ∧ libraries w' = libraries w
    ∧ folders w' = folders w
    ∧ cache w' = cache w
    ∧ calls w'
      = calls w
        ++ (if library_root w then [] else [CallMakedirs "~/llmware/library"])
        ++ [CallLoadLibrary LIBRARY_NAME]
    ∧ ∃ more, ui w' = ui w ++ more.
Proof.
  intros Hcache Hlib.
  unfold main_chat, main_chat_body, main_chat_except, setup_library,
    cache_resource, setup_library_body, library_root_exists,
    makedirs_library_root, load_library.
  destruct (library_root w) eqn:Hroot;
    repeat (run_m; rewrite ?Hcache, ?Hroot, ?Hlib; cbn [negb]);
    (eexists; split; [reflexivity|]); world_simpl;
    rewrite <- ?app_assoc; split_and!; try done; eexists; reflexivity.
Qed.

(** C8.  A click on the build button while the corpus folder is empty
    renders the no-files warning and nothing else: the handler leaves the
    world as it was, the page apart.  In a run where nothing is uploaded
    and the controller is in NoCollection, no collection is created, the
    corpus folder and the cache are as before, the only collaborator call
    is the failed attempt to load the collection (after creating
    [~/llmware/library] when it is missing), and the controller is still
    in NoCollection. *)
Theorem build_with_empty_folder_warns (svc : Services) (inp : Inputs) (w : World) :
  process_clicked inp = true →
  folders w !! RESEARCH_PAPERS_PATH = Some ∅ →
  process_handler svc inp w = (Ret tt, set_ui (ui w ++ [no_files_warning]) w)
  ∧ (uploaded_files inp = [] →
     controller_state w = NoCollection →
     (run svc inp w).1 = Ret tt
     ∧ no_files_warning ∈ ui (run svc inp w).2
     ∧ libraries (run svc inp w).2 = libraries w
     ∧ folders (run svc inp w).2 = folders w
     ∧ cache (run svc inp w).2 = cache w
     ∧ calls (run svc inp w).2
       = calls w
         ++ (if library_root w then [] else [CallMakedirs "~/llmware/library"])
         ++ [CallLoadLibrary LIBRARY_NAME]
     ∧ controller_state (run svc inp w).2 = NoCollection).
Proof.
  intros Hclick Hempty. split.
  - unfold process_handler. rewrite Hclick. run_m. rewrite Hempty.
    rewrite map_to_list_empty. reflexivity.
  - intros Hup Hstate.
    apply controller_state_NoCollection in Hstate as [Hcache Hlib].
    unfold run, script, page_top, sidebar, upload_handler, process_handler.
    rewrite Hup, Hclick.
    repeat (run_m; rewrite ?Hempty, ?map_to_list_empty; cbn [fmap list_fmap]).
    match goal with
    | |- context [main_chat svc inp ?W] =>
        destruct (main_chat_NoCollection svc inp W)
          as (w' & -> & Hl & Hf & Hc & Hcalls & more & Hui);
          [world_simpl; assumption..|]
    end.
    cbn [fst snd]. world_simpl.
    rewrite Hl, Hf, Hc, Hcalls, Hui.
    split_and!; try done.
    + set_solver.
    + apply controller_state_NoCollection. now rewrite Hl, Hc.
Qed.

(** ** The top-level handler *)

Lemma never_reruns_ret {A} (a : A) : never_reruns (mret a).
Proof. intros w. discriminate. Qed.

Lemma never_reruns_raise {A} (e : PyExc) : never_reruns (raise (A:=A) e).
Proof. intros w. discriminate. Qed.

Lemma never_reruns_lift {A} (r : PyExc + A) : never_reruns (lift r).
Proof. destruct r; intros w; discriminate. Qed.

Lemma never_reruns_get_world : never_reruns get_world.
Proof. intros w. discriminate. Qed.

Lemma never_reruns_modify (f : World → World) : never_reruns (modify f).
Proof. intros w. discriminate. Qed.

Lemma never_reruns_bind {A B} (m : M A) (f : A → M B) :
  never_reruns m → (∀ a, never_reruns (f a)) → never_reruns (m ≫= f).
Proof.
  intros Hm Hf w. specialize (Hm w). unfold mbind, M_bind.
  destruct (m w) as [[a | e |] w1]; cbn [fst] in *;
    [apply Hf | discriminate | congruence].
Qed.

Lemma never_reruns_try_except {A} (body : M A) (handler : PyExc → M A) :
  never_reruns body → (∀ e, never_reruns (handler e)) →
  never_reruns (try_except body handler).
Proof.
  intros Hm Hf w. specialize (Hm w). unfold try_except.
  destruct (body w) as [[a | e |] w1]; cbn [fst] in *;
    [discriminate | apply Hf | congruence].
Qed.

Lemma never_reruns_cache_resource (f : string → M Library) (arg : string) :
  never_reruns (f arg) → never_reruns (cache_resource f arg).
Proof.
  intros Hf w. specialize (Hf w). unfold cache_resource.
  destruct (cache w !! arg); [discriminate|].
  destruct (f arg w) as [[a | e |] w1]; cbn [fst] in *; congruence.
Qed.

Ltac never_reruns_tac :=
  repeat first
    [ apply never_reruns_ret | apply never_reruns_raise
    | apply never_reruns_lift | apply never_reruns_get_world
    | apply never_reruns_modify
    | apply never_reruns_bind; [|intros ?]
    | apply never_reruns_try_except; [|intros ?]
    | apply never_reruns_cache_resource
    | match goal with
      | |- never_reruns (match ?x with _ => _ end) => destruct x
      end
    | progress unfold st, log, with_spinner, os_environ_get,
        new_library_object, load_library, library_root_exists,
        makedirs_library_root, setup_library, setup_library_body,
        semantic_search, ask_groq, get_answer_handler, main_chat_body,
        main_chat_except ].

Lemma main_chat_body_never_reruns (svc : Services) (inp : Inputs) :
  never_reruns (main_chat_body svc inp).
Proof. never_reruns_tac. Qed.

(** C5, as the script has it.  The top-level handler encloses the main
    chat block and nothing else.  Whatever the collaborators do while the
    collection is loaded and a query is dispatched, the block ends
    normally.  An unhandled exception of the block, one that leaves its
    body (those of the text-generation call are handled inside [ask_groq]
    and do not), is caught and reported with the guidance to build the
    collection.  The sidebar runs before the [try]: an exception raised
    there (upload, build) ends the run with that exception, nothing more
    is rendered and the main chat block is not reached. *)
Theorem main_chat_catches_exceptions (svc : Services) (inp : Inputs) (w : World) :
  (main_chat svc inp w).1 = Ret tt
  ∧ (∀ e w1, main_chat_body svc inp w = (Raise e, w1) →
       main_chat svc inp w = (Ret tt, set_ui (ui w1 ++ rebuild_guidance e) w1))
  ∧ (∀ e w1, (page_top;; sidebar svc inp) w = (Raise e, w1) →
       script svc inp w = (Raise e, w1)).
Proof.
  split_and!.
  - pose proof (main_chat_body_never_reruns svc inp w) as Hbody.
    unfold main_chat, try_except.
    destruct (main_chat_body svc inp w) as [[[] | e |] w1]; cbn [fst] in *;
      [reflexivity | reflexivity | congruence].
  - intros e w1 Hraise. unfold main_chat, try_except. rewrite Hraise.
    unfold main_chat_except. run_m. f_equal. world_eq w1.
  - intros e w1. unfold script, mbind, M_bind.
    destruct (page_top w) as [[[] | e0 |] w0]; [|tauto..].
    destruct (sidebar svc inp w0) as [[[] | e1 |] w2]; [discriminate|tauto..].
Qed.

(** ** The cache of [setup_library] *)

Lemma load_count_app name cs1 cs2 :
  load_count name (cs1 ++ cs2) = load_count name cs1 + load_count name cs2.
Proof.
  induction cs1 as [|c cs1 IH]; [reflexivity|].
  destruct c; cbn [app load_count]; rewrite IH; lia.
Qed.

#[local] Instance keeps_entry_preorder name entry : PreOrder (keeps_entry name entry).
Proof.
  split.
  - intros w H. now split.
  - intros w1 w2 w3 H12 H23 H1.
    destruct (H12 H1) as [H2 Hc2]. destruct (H23 H2) as [H3 Hc3].
    split; [assumption | congruence].
Qed.

Ltac keeps_entry_step :=
  unfold keeps_entry; world_simpl; intros ?; split; [assumption|];
  rewrite ?load_count_app; cbn [load_count]; lia.

Lemma setup_library_keeps_entry name entry lib_name :
  stable (keeps_entry name entry) (setup_library lib_name).
Proof.
  intros w Hentry. unfold setup_library, cache_resource.
  destruct (cache w !! lib_name) as [hit|] eqn:Hhit.
  { cbn [snd]. world_simpl. now split. }
  assert (Hne : lib_name ≠ name) by congruence.
  assert (Hbody : stable (λ w w', cache w' = cache w
                    ∧ load_count name (calls w') = load_count name (calls w))
                    (setup_library_body lib_name)).
  { assert (PreOrder (λ w w' : World, cache w' = cache w
              ∧ load_count name (calls w') = load_count name (calls w))).
    { split; [now split | intros ??? [] []; split; congruence]. }
    unfold setup_library_body.
    stable_with ltac:(world_simpl; split; [reflexivity|];
                      rewrite ?load_count_app; cbn [load_count];
                      rewrite ?(proj2 (String.eqb_neq _ _) Hne); lia). }
  specialize (Hbody w). cbv beta in Hbody.
  destruct (setup_library_body lib_name w) as [[v | e |] w1]; cbn [snd] in *;
    destruct Hbody as [Hcache Hcalls]; world_simpl;
    rewrite ?lookup_insert_ne by assumption; split; congruence.
Qed.

Lemma script_keeps_entry (svc : Services) name entry (inp : Inputs) :
  stable (keeps_entry name entry) (script svc inp).
Proof.
  unfold script, page_top, sidebar, upload_handler, process_handler,
    process_and_embed_files, main_chat, main_chat_body, main_chat_except,
    get_answer_handler, semantic_search, ask_groq.
  repeat first
    [ apply setup_library_keeps_entry
    | progress stable_with keeps_entry_step ].
Qed.

Lemma interaction_keeps_entry (svc : Services) name entry (inp : Inputs) (w : World) :
  keeps_entry name entry w (interaction svc inp w).
Proof.
  assert (Hrun : ∀ i w0, keeps_entry name entry w0 (run svc i w0).2).
  { intros i w0. unfold run. transitivity (set_ui [] w0).
    - intros H. now split.
    - apply script_keeps_entry. }
  unfold interaction. pose proof (Hrun inp w) as H1.
  destruct (run svc inp w) as [[[] | e |] w1]; cbn [snd] in *; try assumption.
  etransitivity; [exact H1 | apply Hrun].
Qed.

Lemma session_keeps_entry (svc : Services) name entry (inps : list Inputs) (w : World) :
  keeps_entry name entry w (session svc inps w).
Proof.
  revert w. induction inps as [|inp inps IH]; intros w; cbn [session foldl].
  - reflexivity.
  - etransitivity; [apply interaction_keeps_entry | apply IH].
Qed.

(** A load that succeeded is in the cache. *)
Lemma setup_library_caches name library (w0 w : World) :
  setup_library name w0 = (Ret library, w) →
  ∃ entry, cache w !! name = Some entry ∧ cached_value entry = library.
Proof.
  unfold setup_library, cache_resource.
  destruct (cache w0 !! name) as [hit|] eqn:Hhit.
  - intros [= <- <-]. world_simpl. eauto.
  - destruct (setup_library_body name w0) as [[v | e |] w1]; intros [= <- <-].
    world_simpl. rewrite lookup_insert_eq. eauto.
Qed.

(** A load that raised is not: the next request loads again. *)
Lemma failed_load_is_not_cached name e (w0 w : World) :
  setup_library name w0 = (Raise e, w) → cache w !! name = None.
Proof.
  unfold setup_library, cache_resource.
  destruct (cache w0 !! name) as [hit|] eqn:Hhit; [discriminate|].
  assert (Hbody : stable (λ w w', cache w' = cache w) (setup_library_body name)).
  { assert (PreOrder (λ w w' : World, cache w' = cache w)).
    { split; [done | intros ???; congruence]. }
    unfold setup_library_body. stable_with ltac:(reflexivity). }
  specialize (Hbody w0). cbv beta in Hbody.
  destruct (setup_library_body name w0) as [[v | e' |] w1]; intros [= <- <-].
  cbn [snd] in Hbody. congruence.
Qed.

(** C9, as the script has it.  Once a request to load a collection has
    succeeded, the handle it returned is the handle every later request
    for the name returns, through any number of interactions, rebuilds
    included: the entry stays in the cache, [load_library] does not run
    for the name again, and the request makes no call at all. *)
Theorem loaded_library_stays_cached (svc : Services) (name : string)
    (library : Library) (w0 w : World) (inps : list Inputs) :
  setup_library name w0 = (Ret library, w) →
  (∃ entry, cache (session svc inps w) !! name = Some entry
            ∧ cached_value entry = library)
  ∧ load_count name (calls (session svc inps w)) = load_count name (calls w)
  ∧ (setup_library name (session svc inps w)).1 = Ret library
  ∧ calls (setup_library name (session svc inps w)).2 = calls (session svc inps w).
Proof.
  intros Hload.
  destruct (setup_library_caches _ _ _ _ Hload) as (entry & Hentry & Hvalue).
  destruct (session_keeps_entry svc name entry inps w Hentry) as [Hstays Hcount].
  split; [eauto|]. split; [assumption|].
  unfold setup_library, cache_resource. rewrite Hstays. cbn [fst snd].
  world_simpl. now rewrite Hvalue.
Qed.

(** ** The theorems at work on a concrete deployment *)

Lemma ask_groq_without_credential_demo :
  environ Demo.fresh !! "GROQ" = None
  ∧ ask_groq Demo.services "What is the boiling point of water?" LLM_MODEL Demo.fresh
    = (Ret "Error: GROQ environment variable not set. Please add it to your .env file.",
       Demo.fresh).
Proof.
  split; [reflexivity|].
  apply (ask_groq_without_credential Demo.services). reflexivity.
Defined.

Lemma ask_groq_api_failure_demo :
  ask_groq Demo.services_offline "What is the boiling point of water?" LLM_MODEL
    (Demo.with_key Demo.fresh)
  = (Ret "",
     set_ui [Spinner "Calling Groq's LPU to synthesize the answer...";
             Error "Error during Groq API call: Connection error."]
       (set_calls
          [CallChatCompletions
             (mkChatRequest "gsk_test"
                [mkMessage "user" "What is the boiling point of water?"]
                LLM_MODEL)]
          (Demo.with_key Demo.fresh))).
Proof.
  apply (ask_groq_api_failure Demo.services_offline
           "What is the boiling point of water?" LLM_MODEL "gsk_test"
           (mkExc "APIConnectionError" "Connection error.")
           (Demo.with_key Demo.fresh));
    [reflexivity | discriminate | reflexivity].
Defined.

Lemma empty_retrieval_short_circuits_demo :
  get_answer_handler Demo.services Demo.handle (Demo.ask "boiling point") Demo.unbuilt
  = (Ret tt,
     set_ui [Spinner "Performing semantic search for: 'boiling point'...";
             Error "Could not find any relevant information in the provided documents for your query."]
       (set_calls [CallSemanticQuery Demo.handle "boiling point" 20] Demo.unbuilt)).
Proof.
  apply (empty_retrieval_short_circuits Demo.services Demo.handle
           (Demo.ask "boiling point") Demo.unbuilt);
    [reflexivity | discriminate | vm_compute; reflexivity].
Defined.


(** The same search, computed: the shorter text is the closer one. *)
Example semantic_search_demo_results :
  (semantic_search Demo.services Demo.handle "melting" None Demo.ready).1
  = Ret [mkResult "short" (-2) "b.txt";
         mkResult "the boiling point of water is 100C" (-27) "a.txt"].
Proof. vm_compute. reflexivity. Qed.

(** A collection that holds chunks and no vector is refused. *)
Example semantic_search_on_partial_build :
  (semantic_search Demo.services Demo.handle "melting" None Scenario.half_built).1
  = Raise (mkExc "EmbeddingNotFoundException" LIBRARY_NAME).
Proof. vm_compute. reflexivity. Qed.

Lemma build_with_empty_folder_warns_demo :
  process_handler Demo.services Demo.build Demo.empty_folder
  = (Ret tt, set_ui [no_files_warning] Demo.empty_folder)
  ∧ controller_state (run Demo.services Demo.build Demo.empty_folder).2 = NoCollection
  ∧ libraries (run Demo.services Demo.build Demo.empty_folder).2 = ∅.
Proof.
  pose proof (build_with_empty_folder_warns Demo.services Demo.build
                Demo.empty_folder eq_refl eq_refl) as [Hhandler Hrun].
  specialize (Hrun eq_refl eq_refl).
  split; [exact Hhandler|].
  split; [apply Hrun | apply Hrun].
Defined.

Lemma build_without_folder_raises_demo :
  process_handler Demo.services Demo.build Demo.fresh
  = (Raise missing_folder_error, Demo.fresh)
  ∧ (sidebar Demo.services Demo.build Demo.fresh).1 = Raise missing_folder_error.
Proof.
  destruct (build_without_folder_raises Demo.services Demo.build Demo.fresh
              eq_refl) as [Hraise _].
  destruct (Hraise eq_refl) as [Hhandler Hsidebar].
  exact (conj Hhandler (Hsidebar eq_refl)).
Defined.

(** In a new process the collection cannot be loaded: the main chat block
    reports it and ends normally. *)
Lemma main_chat_catches_exceptions_demo :
  main_chat Demo.services Demo.idle Demo.fresh
  = (Ret tt,
     set_ui
       (ui (main_chat_body Demo.services Demo.idle Demo.fresh).2
        ++ rebuild_guidance (mkExc "LibraryNotFoundException" LIBRARY_NAME))
       (main_chat_body Demo.services Demo.idle Demo.fresh).2).
Proof.
  apply (proj1 (proj2 (main_chat_catches_exceptions Demo.services Demo.idle
                         Demo.fresh))).
  vm_compute. reflexivity.
Defined.

(** C5 does not hold for the sidebar: in a new process with no corpus
    folder, a click on the build button raises in the sidebar; the run
    ends with the exception, the page stops after the sidebar's text and
    shows no guidance. *)
Lemma build_error_escapes_handler :
  (run Demo.services Demo.build Demo.fresh).1 = Raise missing_folder_error
  ∧ ui (run Demo.services Demo.build Demo.fresh).2
    = [Title "🔬 Scientific Research Agent";
       Markdown "Powered by `llmware` for RAG, `Groq` for high-speed inference, and `Streamlit` for the UI.";
       Header "📚 Document Setup";
       Write "Upload your scientific papers here. The system will process them into a searchable library."].
Proof. split; vm_compute; reflexivity. Qed.

(** The handle loaded after the first build is the one returned after the
    corpus has changed, the collection has been rebuilt and a question
    asked; [load_library] has not run again. *)
Lemma loaded_library_stays_cached_demo :
  (setup_library LIBRARY_NAME
     (session Demo.services Demo.later_session
        (setup_library LIBRARY_NAME Demo.ready).2)).1
  = Ret Demo.handle
  ∧ load_count LIBRARY_NAME
      (calls (session Demo.services Demo.later_session
                (setup_library LIBRARY_NAME Demo.ready).2))
    = load_count LIBRARY_NAME (calls (setup_library LIBRARY_NAME Demo.ready).2).
Proof.
  destruct (loaded_library_stays_cached Demo.services LIBRARY_NAME Demo.handle
              Demo.ready (setup_library LIBRARY_NAME Demo.ready).2 Demo.later_session)
    as (_ & Hcount & Hsame & _).
  - vm_compute. reflexivity.
  - exact (conj Hsame Hcount).
Defined.

(** C9 does not hold while the collection is missing: in a process
    started before the collection exists, [load_library] runs for the
    same name at the first run, at the run of the upload and at the rerun
    after the build. *)
Lemma load_library_runs_more_than_once :
  load_count LIBRARY_NAME
    (calls (session Demo.services
              [Demo.idle; Demo.upload Demo.papers; Demo.build] Demo.fresh))
  = 3.
Proof. vm_compute. reflexivity. Qed.

(** * Further properties of the script *)

(** ** The answer synthesizer *)

Lemma chat_count_app cs1 cs2 :
  chat_count (cs1 ++ cs2) = chat_count cs1 + chat_count cs2.
Proof.
  induction cs1 as [|c cs1 IH]; [reflexivity|].
  destruct c; cbn [app chat_count]; rewrite IH; lia.
Qed.

(** X1.  With a credential set and a response that holds at least one
    choice, [ask_groq] returns the text of the first choice as it is; it
    has sent one request, whose only message is the prompt under the role
    "user", for the model it was given. *)
Theorem ask_groq_returns_first_choice (svc : Services)
    (user_prompt model key : string) (c : Choice) (cs : list Choice) (w : World) :
  environ w !! "GROQ" = Some key →
  key ≠ "" →
  chat_completions_create svc
    (mkChatRequest key [mkMessage "user" user_prompt] model)
  = inr (mkChatCompletion (c :: cs)) →
  ask_groq svc user_prompt model w
  = (Ret (content (message c)),
     set_calls
       (calls w ++ [CallChatCompletions
                      (mkChatRequest key [mkMessage "user" user_prompt] model)])
       (set_ui (ui w ++ [Spinner "Calling Groq's LPU to synthesize the answer..."])
          w)).
Proof.
  intros Hkey Hne Hok. unfold ask_groq. run_m. rewrite Hkey.
  destruct key as [|k key]; [congruence|].
  run_m. rewrite Hok. run_m. cbn [choices]. reflexivity.
Qed.

(** X2.  A response without any choice makes [choices[0]] raise
    [IndexError] inside the [try]: it is reported like a failed call and
    the empty string is returned. *)
Theorem ask_groq_without_choices (svc : Services)
    (user_prompt model key : string) (w : World) :
  environ w !! "GROQ" = Some key →
  key ≠ "" →
  chat_completions_create svc
    (mkChatRequest key [mkMessage "user" user_prompt] model)
  = inr (mkChatCompletion []) →
  ask_groq svc user_prompt model w
  = (Ret "",
     set_ui (ui w ++ [Spinner "Calling Groq's LPU to synthesize the answer...";
                      Error "Error during Groq API call: list index out of range"])
       (set_calls
          (calls w ++ [CallChatCompletions
                         (mkChatRequest key [mkMessage "user" user_prompt] model)])
          w)).
Proof.
  intros Hkey Hne Hok. unfold ask_groq. run_m. rewrite Hkey.
  destruct key as [|k key]; [congruence|].
  run_m. rewrite Hok. repeat (run_m; cbn [choices exc_str]).
  f_equal. world_eq w.
Qed.

(** X3.  A [GROQ] variable set to the empty string counts as not set:
    the fixed error string is returned and nothing is sent. *)
Theorem ask_groq_with_empty_credential (svc : Services)
    (user_prompt model : string) (w : World) :
  environ w !! "GROQ" = Some "" →
  ask_groq svc user_prompt model w
  = (Ret "Error: GROQ environment variable not set. Please add it to your .env file.", w).
Proof.
  intros Hkey. unfold ask_groq. run_m. rewrite Hkey. reflexivity.
Qed.

(** X5.  A click on "Get Answer" with an empty question renders the
    warning and stops there: no retrieval, no request. *)
Theorem empty_question_warns (svc : Services) (library : Library)
    (inp : Inputs) (w : World) :
  get_answer_clicked inp = true →
  user_query inp = "" →
  get_answer_handler svc library inp w
  = (Ret tt, set_ui (ui w ++ [Warning "Please enter a question."]) w).
Proof.
  intros Hclick Hq. unfold get_answer_handler.
  rewrite Hclick, bool_decide_eq_true_2 by assumption. reflexivity.
Qed.

(** X6.  The whole path of a question that finds results, with a
    credential set and a response that holds a choice: one retrieval for
    20 results, one request, whose single user message is the prompt of
    [final_prompt] under the configured model, and the text of the first
    choice rendered as it is under the answer heading. *)
Theorem answer_is_rendered_verbatim (svc : Services) (library : Library)
    (inp : Inputs) (w : World) (r : Result) (rs : list Result) (key : string)
    (c : Choice) (cs : list Choice) :
  get_answer_clicked inp = true →
  user_query inp ≠ "" →
  semantic_query svc (libraries w) library (user_query inp) 20 = inr (r :: rs) →
  environ w !! "GROQ" = Some key →
  key ≠ "" →
  chat_completions_create svc
    (mkChatRequest key
       [mkMessage "user"
          (prompt_head +:+ context_of (r :: rs) +:+ prompt_middle
           +:+ user_query inp +:+ prompt_tail)]
       LLM_MODEL)
  = inr (mkChatCompletion (c :: cs)) →
  (get_answer_handler svc library inp w).1 = Ret tt
  ∧ ui (get_answer_handler svc library inp w).2
    = ui w ++ [search_spinner (user_query inp);
               Spinner "Calling Groq's LPU to synthesize the answer...";
               Subheader "💡 Answer";
               Markdown (content (message c))]
  ∧ calls (get_answer_handler svc library inp w).2
    = calls w
      ++ [CallSemanticQuery library (user_query inp) 20;
          CallChatCompletions
            (mkChatRequest key
               [mkMessage "user"
                  (prompt_head +:+ context_of (r :: rs) +:+ prompt_middle
                   +:+ user_query inp +:+ prompt_tail)]
               LLM_MODEL)].
Proof.
  intros Hclick Hq Hrs Hkey Hne Hok.
  unfold get_answer_handler, semantic_search, ask_groq.
  rewrite Hclick, bool_decide_eq_false_2 by assumption.
  run_m. cbn [default]. rewrite Hrs. run_m.
  rewrite final_prompt_value. run_m. rewrite Hkey.
  destruct key as [|k key]; [congruence|]. run_m. rewrite Hok.
  repeat (run_m; cbn [choices fst snd]).
  rewrite <- !app_assoc. split_and!; reflexivity.
Qed.

(** X7.  A question that finds results while no credential is set: no
    request is sent, and the fixed error string of [ask_groq] is what the
    page shows under the answer heading. *)
Theorem missing_credential_is_shown_as_answer (svc : Services)
    (library : Library) (inp : Inputs) (w : World) (r : Result) (rs : list Result) :
  get_answer_clicked inp = true →
  user_query inp ≠ "" →
  semantic_query svc (libraries w) library (user_query inp) 20 = inr (r :: rs) →
  environ w !! "GROQ" = None →
  get_answer_handler svc library inp w
  = (Ret tt,
     set_ui
       (ui w ++ [search_spinner (user_query inp);
                 Subheader "💡 Answer";
                 Markdown "Error: GROQ environment variable not set. Please add it to your .env file."])
       (set_calls (calls w ++ [CallSemanticQuery library (user_query inp) 20]) w)).
Proof.
  intros Hclick Hq Hrs Hkey.
  unfold get_answer_handler, semantic_search, ask_groq.
  rewrite Hclick, bool_decide_eq_false_2 by assumption.
  run_m. cbn [default]. rewrite Hrs. run_m.
  rewrite final_prompt_value. run_m. rewrite Hkey. run_m.
  f_equal. world_eq w.
Qed.

(** X8.  A retrieval that raises, in a process that holds a loaded
    handle: the exception reaches the top-level handler, which reports it
    as a failure to load the library, with the guidance to rebuild.  No
    request is sent and the run ends normally. *)
Theorem retrieval_failure_is_reported_as_load_failure (svc : Services)
    (inp : Inputs) (w : World) (entry : CacheEntry) (e : PyExc) :
  cache w !! LIBRARY_NAME = Some entry →
  get_answer_clicked inp = true →
  user_query inp ≠ "" →
  semantic_query svc (libraries w) (cached_value entry) (user_query inp) 20
  = inl e →
  (main_chat svc inp w).1 = Ret tt
  ∧ ui (main_chat svc inp w).2
    = ui w ++ cached_elements entry
      ++ [Header "❓ Ask a Question";
          Write "Pose a question to the agent based on the documents you provided.";
          search_spinner (user_query inp)]
      ++ rebuild_guidance e
  ∧ calls (main_chat svc inp w).2
    = calls w ++ [CallSemanticQuery (cached_value entry) (user_query inp) 20].
Proof.
  intros Hentry Hclick Hq Hfail.
  unfold main_chat, main_chat_body, main_chat_except, setup_library,
    cache_resource, get_answer_handler, semantic_search.
  rewrite Hclick, bool_decide_eq_false_2 by assumption.
  repeat (run_m; rewrite ?Hentry, ?Hfail; cbn [default fst snd]).
  rewrite <- !app_assoc. split_and!; reflexivity.
Qed.

(** X9.  A question asked while the collection cannot be loaded is not
    dispatched: the load fails, the handler reports it, and neither the
    retrieval service nor the text-generation service is called. *)
Theorem question_without_collection_is_not_dispatched (svc : Services)
    (inp : Inputs) (w : World) :
  cache w !! LIBRARY_NAME = None →
  libraries w !! LIBRARY_NAME = None →
  (main_chat svc inp w).1 = Ret tt
  ∧ ui (main_chat svc inp w).2
    = ui w ++ [Write "Loading library: scientific_papers_lib..."]
      ++ rebuild_guidance (mkExc "LibraryNotFoundException" LIBRARY_NAME)
  ∧ calls (main_chat svc inp w).2
    = calls w
      ++ (if library_root w then [] else [CallMakedirs "~/llmware/library"])
      ++ [CallLoadLibrary LIBRARY_NAME].
Proof.
  intros Hcache Hlib.
  unfold main_chat, main_chat_body, main_chat_except, setup_library,
    cache_resource, setup_library_body, library_root_exists,
    makedirs_library_root, load_library.
  destruct (library_root w) eqn:Hroot;
    repeat (run_m; rewrite ?Hcache, ?Hroot, ?Hlib; cbn [negb fst snd]);
    rewrite <- ?app_assoc; split_and!; reflexivity.
Qed.

(** ** The prompt *)

(** X10.  Results after the seventh have no part in the prompt. *)
Theorem final_prompt_ignores_results_after_seventh
    (query_results more : list Result) (user_query : string) :
  7 ≤ length query_results →
  final_prompt (query_results ++ more) user_query
  = final_prompt query_results user_query.
Proof.
  intros Hlen. rewrite !final_prompt_value. unfold context_of.
  now rewrite take_app_le by assumption.
Qed.

(** ** Computations that do not return *)

Lemma never_returns_bind {A B} (m : M A) (f : A → M B) :
  (∀ a, never_returns (f a)) → never_returns (m ≫= f).
Proof.
  intros Hf w b. unfold mbind, M_bind.
  destruct (m w) as [[a | e |] w1]; cbn [fst]; [apply Hf | discriminate..].
Qed.

Lemma never_returns_rerun {A} : never_returns (st_rerun (A:=A)).
Proof. intros w a. discriminate. Qed.

Lemma process_and_embed_files_never_returns (svc : Services) (lib folder : string) :
  never_returns (process_and_embed_files svc lib folder).
Proof.
  unfold process_and_embed_files.
  repeat (apply never_returns_bind; intros ?). apply never_returns_rerun.
Qed.

(** ** Uploads *)











(** ** Builds that fail, builds that succeed *)

(** X12.  A build whose parsing stops on an exception: the exception
    leaves [process_and_embed_files], which has no handler; the embedding
    is not attempted and nothing after the parsing line is rendered.
    There is no rollback: the collection holds what it held before the
    build and the chunks added before the exception. *)
Theorem failed_parsing_stops_the_build (svc : Services)
    (folder : string) (w : World) files bs (e : PyExc) :
  folders w !! folder = Some files →
  parse_and_chunk svc (previous_blocks LIBRARY_NAME w) files 400 600 1
  = (bs, Some e) →
  (process_and_embed_files svc LIBRARY_NAME folder w).1 = Raise e
  ∧ libraries (process_and_embed_files svc LIBRARY_NAME folder w).2
    = <[LIBRARY_NAME := mkCollection (previous_blocks LIBRARY_NAME w ++ bs)
                          (previous_embedding LIBRARY_NAME w)]> (libraries w)
  ∧ calls (process_and_embed_files svc LIBRARY_NAME folder w).2
    = calls w
      ++ (if bool_decide (LIBRARY_NAME ∈ library_dirs w)
          then [CallRmtree (library_path LIBRARY_NAME)] else [])
      ++ [CallCreateNewLibrary LIBRARY_NAME; CallAddFiles LIBRARY_NAME folder]
  ∧ ui (process_and_embed_files svc LIBRARY_NAME folder w).2
    = ui w ++ build_start LIBRARY_NAME folder.
Proof.
  intros Hfolder Hparse.
  unfold process_and_embed_files, library_path_exists, rmtree_library_path,
    create_new_library, add_files, install_new_embedding, new_library_object,
    previous_embedding, build_start.
  unfold previous_blocks in *.
  destruct (libraries w !! LIBRARY_NAME) as [old|] eqn:Hold;
    cbn [from_option] in Hparse;
    destruct (bool_decide (LIBRARY_NAME ∈ library_dirs w)) eqn:Hdir;
    repeat (run_m;
            rewrite ?Hold, ?Hdir, ?Hfolder, ?Hparse, ?lookup_insert_eq;
            cbn [library_name blocks embedding empty_collection app fst snd
                 from_option option_bind]);
    rewrite ?insert_insert_eq, <- ?app_assoc; split_and!; reflexivity.
Qed.

(** X13.  A build whose embedding stops on an exception: the exception
    leaves [process_and_embed_files]; neither the success message nor the
    balloons are rendered and no rerun is asked for.  The collection
    holds its chunks, those of the folder among them, and the vectors
    stored before the exception. *)
Theorem failed_embedding_stops_the_build (svc : Services)
    (folder : string) (w : World) files bs vs (e : PyExc) :
  folders w !! folder = Some files →
  parse_and_chunk svc (previous_blocks LIBRARY_NAME w) files 400 600 1
  = (bs, None) →
  embed_blocks svc EMBEDDING_MODEL "chromadb" (previous_blocks LIBRARY_NAME w ++ bs)
  = (vs, Some e) →
  (process_and_embed_files svc LIBRARY_NAME folder w).1 = Raise e
  ∧ libraries (process_and_embed_files svc LIBRARY_NAME folder w).2
    = <[LIBRARY_NAME :=
          built_collection (previous_blocks LIBRARY_NAME w ++ bs) vs]> (libraries w)
  ∧ ui (process_and_embed_files svc LIBRARY_NAME folder w).2
    = ui w ++ build_start LIBRARY_NAME folder ++ [embedding_start].
Proof.
  intros Hfolder Hparse Hembed.
  unfold process_and_embed_files, library_path_exists, rmtree_library_path,
    create_new_library, add_files, install_new_embedding, new_library_object,
    build_start, embedding_start, built_collection.
  unfold previous_blocks in *.
  destruct (libraries w !! LIBRARY_NAME) as [old|] eqn:Hold;
    cbn [from_option app] in Hembed, Hparse;
    destruct (bool_decide (LIBRARY_NAME ∈ library_dirs w)) eqn:Hdir;
    repeat (run_m;
            rewrite ?Hold, ?Hdir, ?Hfolder, ?Hparse, ?Hembed, ?lookup_insert_eq;
            cbn [library_name blocks embedding empty_collection app fst snd
                 from_option]);
    rewrite ?insert_insert_eq, <- ?app_assoc; split_and!; reflexivity.
Qed.

#[local] Instance same_loads_preorder name : PreOrder (same_loads name).
Proof.
  split; [intros w; reflexivity | intros w1 w2 w3; unfold same_loads; congruence].
Qed.

Ltac same_loads_step :=
  unfold same_loads; world_simpl; rewrite ?load_count_app; cbn [load_count]; lia.

Lemma process_and_embed_files_same_loads (svc : Services) name (lib folder : string) :
  stable (same_loads name) (process_and_embed_files svc lib folder).
Proof. unfold process_and_embed_files. stable_with same_loads_step. Qed.

(** X14.  A click on the build button over a corpus folder that holds a
    file, nothing being uploaded in the run: the run does not end
    normally (it ends in the rerun request or in the exception of the
    build), and the main chat block is not run: no load of the
    collection is attempted in that run. *)
Theorem started_build_ends_the_run (svc : Services) (inp : Inputs) (w : World) d :
  process_clicked inp = true →
  uploaded_files inp = [] →
  folders w !! RESEARCH_PAPERS_PATH = Some d →
  d ≠ ∅ →
  (run svc inp w).1 ≠ Ret tt
  ∧ load_count LIBRARY_NAME (calls (run svc inp w).2)
    = load_count LIBRARY_NAME (calls w).
Proof.
  intros Hclick Hup Hd Hne.
  unfold run, script, page_top, sidebar, upload_handler, process_handler.
  rewrite Hup, Hclick.
  repeat (run_m; rewrite ?Hd).
  destruct (fst <$> map_to_list d) as [|n ns] eqn:Hls.
  { apply map_to_list_nil_inv in Hls. contradiction. }
  match goal with
  | |- context [process_and_embed_files svc ?l ?f ?W] =>
      pose proof (process_and_embed_files_never_returns svc l f W) as Hnever;
      pose proof (process_and_embed_files_same_loads svc LIBRARY_NAME l f W)
        as Hloads;
      destruct (process_and_embed_files svc l f W) as [[[] | e |] w1]
  end; cbn [fst snd] in *; unfold same_loads in Hloads; world_simpl.
  - now destruct (Hnever tt).
  - split; [discriminate | exact Hloads].
  - split; [discriminate | exact Hloads].
Qed.

(** ** What a run leaves alone *)

Lemma stable_cache_resource (R : relation World) `{!PreOrder R}
    (f : string → M Library) (arg : string) :
  stable R (f arg) →
  (∀ g w, R w (update_ui g w)) →
  (∀ g w, R w (update_cache g w)) →
  stable R (cache_resource f arg).
Proof.
  intros Hf Hui Hcache w. specialize (Hf w). unfold cache_resource.
  destruct (cache w !! arg); [apply Hui|].
  destruct (f arg w) as [[v | e |] w1]; cbn [snd] in *; [|assumption..].
  etransitivity; [exact Hf | apply Hcache].
Qed.

Lemma stable_bind_with {A B} (R : relation World) `{!PreOrder R}
    (P : A → Prop) (m : M A) (f : A → M B) :
  stable R m → returns P m → (∀ a, P a → stable R (f a)) → stable R (m ≫= f).
Proof.
  intros Hm HP Hf w. specialize (Hm w). specialize (HP w). unfold mbind, M_bind.
  destruct (m w) as [[a | e |] w1]; cbn [snd] in *; [|assumption..].
  etransitivity; [exact Hm | apply Hf; eapply HP; reflexivity].
Qed.

#[local] Instance storage_kept_preorder : PreOrder storage_kept.
Proof.
  split.
  - intros w. now split_and!.
  - intros w1 w2 w3 (Hl12 & Hd12 & Hr12) (Hl23 & Hd23 & Hr23).
    split_and!; [congruence | congruence | auto].
Qed.

#[local] Instance same_folders_preorder : PreOrder same_folders.
Proof.
  split; [intros w; reflexivity | intros w1 w2 w3; unfold same_folders; congruence].
Qed.

Ltac unfold_script :=
  unfold script, page_top, sidebar, upload_handler, process_handler,
    process_and_embed_files, main_chat, main_chat_body, main_chat_except,
    get_answer_handler, semantic_search, ask_groq, setup_library,
    setup_library_body.

Ltac stable_script solve_step :=
  repeat first
    [ apply stable_cache_resource;
        [typeclasses eauto | | intros ? ?; solve_step | intros ? ?; solve_step]
    | progress stable_with solve_step ].

Ltac storage_kept_step :=
  unfold storage_kept; world_simpl; split_and!; (reflexivity || tauto).

(** The upload handler under plain names writes into the corpus folder
    and nowhere else. *)
Lemma upload_handler_stable (R : relation World) `{!PreOrder R}
    (svc : Services) (inp : Inputs) :
  plain_uploads inp →
  (∀ g w, R w (update_ui g w)) →
  (∀ g w, R w (update_calls g w)) →
  (∀ w d, folders w !! RESEARCH_PAPERS_PATH = d →
     ∀ d', (∀ n, is_Some (default ∅ d !! n) → is_Some (d' !! n)) →
     R w (update_folders (<[RESEARCH_PAPERS_PATH := d']>) w)) →
  stable R (upload_handler svc inp).
Proof.
  intros Hplain Hui Hcalls Hfolders. unfold upload_handler.
  unfold plain_uploads in Hplain.
  destruct (uploaded_files inp) as [|f0 files0]; [apply stable_ret; preorder_goal|].
  apply stable_bind; preorder_goal;
    [unfold os_path_exists; stable_with fail | intros there].
  apply stable_bind; preorder_goal.
  { destruct (negb there); [|apply stable_ret; preorder_goal].
    intros w. unfold os_makedirs. run_m.
    destruct (folders w !! RESEARCH_PAPERS_PATH) as [d|] eqn:Hd; run_m; cbn [snd];
      [reflexivity|].
    etransitivity; [apply Hcalls|].
    apply (Hfolders _ None); [world_simpl; exact Hd|].
    cbn [default]. intros n [x Hx]. now rewrite lookup_empty in Hx. }
  intros _. apply stable_bind; preorder_goal;
    [|intros _; unfold st; apply stable_modify; preorder_goal; intros ?; apply Hui].
  eapply stable_for_each_Forall; preorder_goal; [exact Hplain | intros f Hf].
  cbv beta in Hf. intros w. unfold write_file. rewrite Hf. run_m.
  destruct (folders w !! RESEARCH_PAPERS_PATH) as [d|] eqn:Hd; run_m; cbn [snd];
    [|reflexivity].
  etransitivity; [apply Hcalls|].
  apply (Hfolders _ (Some d)); [world_simpl; exact Hd|].
  cbn [default]. intros n Hn.
  destruct (decide (name f = n)) as [<- | Hne].
  - rewrite lookup_insert_eq. eauto.
  - now rewrite lookup_insert_ne.
Qed.

Lemma script_storage_kept (svc : Services) (inp : Inputs) :
  process_clicked inp = false → plain_uploads inp →
  stable storage_kept (script svc inp).
Proof.
  intros Hclick Hplain.
  unfold script, page_top, sidebar, process_handler, main_chat, main_chat_body,
    main_chat_except, get_answer_handler, semantic_search, ask_groq,
    setup_library, setup_library_body.
  rewrite Hclick.
  repeat first
    [ apply upload_handler_stable;
        [typeclasses eauto | exact Hplain | intros ? ?; storage_kept_step
        | intros ? ?; storage_kept_step | intros ? ? ? ? ?; storage_kept_step]
    | progress stable_script storage_kept_step ].
Qed.

Lemma script_same_folders (svc : Services) (inp : Inputs) :
  process_clicked inp = false → uploaded_files inp = [] →
  stable same_folders (script svc inp).
Proof.
  intros Hclick Hup. unfold_script. rewrite Hclick, Hup.
  stable_script ltac:(unfold same_folders; world_simpl; reflexivity).
Qed.

(** A load that is not served from the cache leaves [~/llmware/library]
    on disk, whether the collection is found or not. *)
Lemma setup_library_makes_root (n : string) (w : World) :
  cache w !! n = None → library_root (setup_library n w).2 = true.
Proof.
  intros Hmiss.
  unfold setup_library, cache_resource, setup_library_body,
    library_root_exists, makedirs_library_root, load_library, new_library_object.
  rewrite Hmiss.
  destruct (library_root w) eqn:Hroot; destruct (libraries w !! n) eqn:Hlib;
    repeat (run_m; rewrite ?Hroot, ?Hlib; cbn [negb fst snd]);
    first [reflexivity | assumption].
Qed.

Lemma main_chat_makes_root (svc : Services) (inp : Inputs) (w : World) :
  cache w !! LIBRARY_NAME = None → library_root (main_chat svc inp w).2 = true.
Proof.
  intros Hmiss.
  pose proof (setup_library_makes_root LIBRARY_NAME w Hmiss) as Hroot.
  assert (Hrest : ∀ library,
            stable storage_kept
              (st (Header "❓ Ask a Question");;
               st (Write "Pose a question to the agent based on the documents you provided.");;
               get_answer_handler svc library inp)).
  { intros library. unfold get_answer_handler, semantic_search, ask_groq.
    stable_script storage_kept_step. }
  assert (Hexcept : ∀ e, stable storage_kept (main_chat_except e)).
  { intros e. unfold main_chat_except. stable_script storage_kept_step. }
  unfold main_chat, main_chat_body, try_except.
  unfold mbind at 1, M_bind at 1.
  destruct (setup_library LIBRARY_NAME w) as [[library | e |] w1];
    cbn [snd] in Hroot.
  - specialize (Hrest library w1).
    match type of Hrest with
    | storage_kept _ (?rest _).2 =>
        destruct (rest w1) as [[[] | e |] w2]
    end; cbn [snd] in *.
    + now apply Hrest.
    + apply (Hexcept e w2). now apply Hrest.
    + now apply Hrest.
  - now apply (Hexcept e w1).
  - exact Hroot.
Qed.

(** X16.  An interaction without a click on the build button, the
    uploaded files having plain names: no collection changes and no
    directory under [~/llmware/library] appears or goes.  With nothing
    uploaded no folder changes either.  The directory [~/llmware/library]
    itself is never removed, and it is created by the load of the
    collection: it is on disk after every such interaction without upload
    in which the load was not served from the cache. *)
Theorem interaction_without_build_is_read_only (svc : Services) (inp : Inputs)
    (w : World) :
  process_clicked inp = false →
  plain_uploads inp →
  libraries (interaction svc inp w) = libraries w
  ∧ library_dirs (interaction svc inp w) = library_dirs w
  ∧ (library_root w = true → library_root (interaction svc inp w) = true)
  ∧ (uploaded_files inp = [] → folders (interaction svc inp w) = folders w)
  ∧ (uploaded_files inp = [] → cache w !! LIBRARY_NAME = None →
     library_root (interaction svc inp w) = true).
Proof.
  intros Hclick Hplain.
  assert (Hkept : ∀ i w0, process_clicked i = false → plain_uploads i →
            storage_kept w0 (run svc i w0).2).
  { intros i w0 Hi Hp. unfold run. transitivity (set_ui [] w0).
    - storage_kept_step.
    - exact (script_storage_kept svc i Hi Hp (set_ui [] w0)). }
  assert (Hfold : ∀ i w0, process_clicked i = false → uploaded_files i = [] →
            folders (run svc i w0).2 = folders w0).
  { intros i w0 Hi Hu. exact (script_same_folders svc i Hi Hu (set_ui [] w0)). }
  assert (Hroot : uploaded_files inp = [] → cache w !! LIBRARY_NAME = None →
            library_root (run svc inp w).2 = true).
  { intros Hup Hmiss.
    unfold run, script, page_top, sidebar, upload_handler, process_handler.
    rewrite Hup, Hclick. run_m. now apply main_chat_makes_root. }
  assert (Hinter : storage_kept w (interaction svc inp w)
            ∧ storage_kept (run svc inp w).2 (interaction svc inp w)
            ∧ (uploaded_files inp = [] →
               folders (interaction svc inp w) = folders w)).
  { unfold interaction.
    pose proof (Hkept inp w Hclick Hplain) as H1.
    pose proof (Hfold inp w Hclick) as H2.
    destruct (run svc inp w) as [[[] | e |] w1]; cbn [snd] in *;
      try (split_and!; [assumption | reflexivity | assumption]).
    assert (H3 : storage_kept w1 (run svc (rerun_inputs inp) w1).2)
      by (apply Hkept; [reflexivity | exact Hplain]).
    split_and!; [etransitivity; eassumption | exact H3 |].
    intros Hup. rewrite Hfold by (reflexivity || exact Hup). exact (H2 Hup). }
  destruct Hinter as ((Hl & Hd & Hr) & (_ & _ & Hlater) & Hf).
  split_and!; try assumption.
  intros Hup Hmiss. apply Hlater. now apply Hroot.
Qed.

(** ** From NoCollection to Ready *)

Lemma controller_state_Ready (w : World) (c : Collection) :
  libraries w !! LIBRARY_NAME = Some c → controller_state w = Ready.
Proof.
  intros Hc. destruct (controller_state w) eqn:Hstate; [|reflexivity].
  apply controller_state_NoCollection in Hstate as [_ Hnone]. congruence.
Qed.

(** X17.  A click on the build button over a corpus folder that holds a
    file, with parsing and embedding that succeed: the run ends in the
    rerun request, and after the rerun the controller is Ready.  The
    collection holds the chunks it held before the build followed by
    those of the folder, so the chunks of the folder alone when there was
    no collection. *)
Theorem successful_build_makes_ready (svc : Services) (inp : Inputs) (w : World)
    files bs vs :
  process_clicked inp = true →
  uploaded_files inp = [] →
  folders w !! RESEARCH_PAPERS_PATH = Some files →
  files ≠ ∅ →
  parse_and_chunk svc (previous_blocks LIBRARY_NAME w) files 400 600 1
  = (bs, None) →
  embed_blocks svc EMBEDDING_MODEL "chromadb"
    (previous_blocks LIBRARY_NAME w ++ bs) = (vs, None) →
  (run svc inp w).1 = RerunRequest
  ∧ libraries (interaction svc inp w)
    = <[LIBRARY_NAME :=
          built_collection (previous_blocks LIBRARY_NAME w ++ bs) vs]> (libraries w)
  ∧ (libraries w !! LIBRARY_NAME = None →
     libraries (interaction svc inp w) !! LIBRARY_NAME
     = Some (built_collection bs vs))
  ∧ controller_state (interaction svc inp w) = Ready.
Proof.
  intros Hclick Hup Hfiles Hne Hparse Hembed.
  set (c := built_collection (previous_blocks LIBRARY_NAME w ++ bs) vs).
  assert (Hrun : ∃ w1, run svc inp w = (RerunRequest, w1)
            ∧ libraries w1 = <[LIBRARY_NAME := c]> (libraries w)).
  { unfold run, script, page_top, sidebar, upload_handler, process_handler.
    rewrite Hup, Hclick.
    repeat (run_m; rewrite ?Hfiles).
    destruct (fst <$> map_to_list files) as [|n ns] eqn:Hls.
    { apply map_to_list_nil_inv in Hls. contradiction. }
    match goal with
    | |- context [process_and_embed_files svc ?l ?f ?W] =>
        destruct (process_and_embed_files_builds svc l f W files bs vs)
          as (w1 & -> & Hlibs & _); [world_simpl; assumption..|]
    end.
    exists w1. world_simpl. now split. }
  destruct Hrun as (w1 & Hrun & Hlibs).
  assert (Hafter : libraries (interaction svc inp w)
            = <[LIBRARY_NAME := c]> (libraries w)).
  { unfold interaction. rewrite Hrun. rewrite <- Hlibs.
    assert (Hplain : plain_uploads (rerun_inputs inp)).
    { unfold plain_uploads, rerun_inputs. cbn [uploaded_files].
      rewrite Hup. constructor. }
    exact (proj1 (script_storage_kept svc (rerun_inputs inp) eq_refl Hplain
                    (set_ui [] w1))). }
  rewrite Hrun. split_and!; [reflexivity | exact Hafter | |].
  - intros Hnone. rewrite Hafter, lookup_insert_eq. unfold c, previous_blocks.
    now rewrite Hnone.
  - apply (controller_state_Ready _ c).
    rewrite Hafter. apply lookup_insert_eq.
Qed.

(** ** Text-generation requests *)

#[local] Instance same_chats_preorder : PreOrder same_chats.
Proof.
  split; [intros w; reflexivity | intros w1 w2 w3; unfold same_chats; congruence].
Qed.

Ltac same_chats_step :=
  unfold same_chats; world_simpl; rewrite ?chat_count_app; cbn [chat_count]; lia.

Lemma at_most_one_chat_stable {A} (m : M A) :
  stable same_chats m → at_most_one_chat m.
Proof. intros Hm w. specialize (Hm w). unfold same_chats in Hm. lia. Qed.

Lemma at_most_one_chat_after {A B} (m : M A) (f : A → M B) :
  stable same_chats m → (∀ a, at_most_one_chat (f a)) →
  at_most_one_chat (m ≫= f).
Proof.
  intros Hm Hf w. specialize (Hm w). unfold same_chats in Hm.
  unfold mbind, M_bind.
  destruct (m w) as [[a | e |] w1]; cbn [snd] in *; [|lia..].
  specialize (Hf a w1). lia.
Qed.

Lemma at_most_one_chat_before {A B} (m : M A) (f : A → M B) :
  at_most_one_chat m → (∀ a, stable same_chats (f a)) →
  at_most_one_chat (m ≫= f).
Proof.
  intros Hm Hf w. specialize (Hm w). unfold mbind, M_bind.
  destruct (m w) as [[a | e |] w1]; cbn [snd] in *; [|lia..].
  specialize (Hf a w1). unfold same_chats in Hf. lia.
Qed.

Lemma at_most_one_chat_try_except {A} (body : M A) (handler : PyExc → M A) :
  at_most_one_chat body → (∀ e, stable same_chats (handler e)) →
  at_most_one_chat (try_except body handler).
Proof.
  intros Hm Hf w. specialize (Hm w). unfold try_except.
  destruct (body w) as [[a | e |] w1]; cbn [snd] in *; [lia| |lia].
  specialize (Hf e w1). unfold same_chats in Hf. lia.
Qed.

Lemma ask_groq_at_most_one_chat (svc : Services) (user_prompt model : string) :
  at_most_one_chat (ask_groq svc user_prompt model).
Proof.
  intros w. unfold ask_groq. run_m.
  destruct (environ w !! "GROQ") as [[|k key]|]; cbn [snd]; [lia | | lia].
  run_m.
  destruct (chat_completions_create svc _) as [e | [[|c cs]]];
    repeat (run_m; cbn [choices snd]);
    rewrite chat_count_app; cbn [chat_count]; lia.
Qed.

Lemma get_answer_handler_at_most_one_chat (svc : Services) (library : Library)
    (inp : Inputs) :
  at_most_one_chat (get_answer_handler svc library inp).
Proof.
  unfold get_answer_handler.
  destruct (get_answer_clicked inp);
    [|apply at_most_one_chat_stable; stable_with same_chats_step].
  destruct (bool_decide (user_query inp = ""));
    [apply at_most_one_chat_stable; stable_with same_chats_step|].
  apply at_most_one_chat_after;
    [unfold semantic_search; stable_with same_chats_step|].
  intros [|r rs]; [apply at_most_one_chat_stable; stable_with same_chats_step|].
  apply at_most_one_chat_after; [stable_with same_chats_step|]. intros prompt.
  apply at_most_one_chat_before; [apply ask_groq_at_most_one_chat|].
  intros answer. stable_with same_chats_step.
Qed.

Lemma prelude_same_chats (svc : Services) (inp : Inputs) :
  stable same_chats (page_top;; sidebar svc inp).
Proof.
  unfold page_top, sidebar, upload_handler, process_handler,
    process_and_embed_files.
  stable_with same_chats_step.
Qed.

Lemma setup_library_same_chats (n : string) : stable same_chats (setup_library n).
Proof.
  unfold setup_library, setup_library_body. stable_script same_chats_step.
Qed.

Lemma main_chat_at_most_one_chat (svc : Services) (inp : Inputs) :
  at_most_one_chat (main_chat svc inp).
Proof.
  unfold main_chat. apply at_most_one_chat_try_except.
  - unfold main_chat_body.
    apply at_most_one_chat_after; [apply setup_library_same_chats|]. intros library.
    apply at_most_one_chat_after; [stable_with same_chats_step|]. intros _.
    apply at_most_one_chat_after; [stable_with same_chats_step|]. intros _.
    apply get_answer_handler_at_most_one_chat.
  - intros e. unfold main_chat_except. stable_with same_chats_step.
Qed.

Lemma main_chat_without_question_same_chats (svc : Services) (inp : Inputs) :
  get_answer_clicked inp = false ∨ user_query inp = "" →
  stable same_chats (main_chat svc inp).
Proof.
  intros Hno. unfold main_chat, main_chat_body, main_chat_except,
    get_answer_handler.
  apply stable_try_except; [typeclasses eauto| |intros e; stable_with same_chats_step].
  apply stable_bind; [typeclasses eauto|apply setup_library_same_chats|intros library].
  destruct Hno as [-> | ->]; [|destruct (get_answer_clicked inp)];
    stable_with same_chats_step.
Qed.

(** The script, cut before the main chat block. *)
Lemma script_split (svc : Services) (inp : Inputs) (w : World) :
  script svc inp w
  = match (page_top;; sidebar svc inp) w with
    | (Ret _, w1) => main_chat svc inp w1
    | (Raise e, w1) => (Raise e, w1)
    | (RerunRequest, w1) => (RerunRequest, w1)
    end.
Proof.
  unfold script, mbind, M_bind.
  destruct (page_top w) as [[[] | e |] w0]; [|reflexivity..].
  destruct (sidebar svc inp w0) as [[[] | e |] w1]; reflexivity.
Qed.

Lemma main_chat_returns (svc : Services) (inp : Inputs) (w : World) :
  (main_chat svc inp w).1 = Ret tt.
Proof.
  pose proof (main_chat_body_never_reruns svc inp w) as Hbody.
  unfold main_chat, try_except.
  destruct (main_chat_body svc inp w) as [[[] | e |] w1]; cbn [fst] in *;
    [reflexivity | reflexivity | congruence].
Qed.

(** X18.  One interaction sends at most one text-generation request, and
    none unless "Get Answer" is clicked on a question that is not
    empty. *)
Theorem at_most_one_request_per_interaction (svc : Services) (inp : Inputs)
    (w : World) :
  chat_count (calls (interaction svc inp w)) ≤ chat_count (calls w) + 1
  ∧ (get_answer_clicked inp = false ∨ user_query inp = "" →
     chat_count (calls (interaction svc inp w)) = chat_count (calls w)).
Proof.
  assert (Hquiet : ∀ i w0, get_answer_clicked i = false ∨ user_query i = "" →
            chat_count (calls (run svc i w0).2) = chat_count (calls w0)).
  { intros i w0 Hi. unfold run. rewrite script_split.
    pose proof (prelude_same_chats svc i (set_ui [] w0)) as Hpre.
    destruct ((page_top;; sidebar svc i) (set_ui [] w0)) as [[[] | e |] w1];
      cbn [snd] in *; unfold same_chats in Hpre; world_simpl; try assumption.
    pose proof (main_chat_without_question_same_chats svc i Hi w1) as Hmain.
    unfold same_chats in Hmain. lia. }
  assert (Hrun : ∀ i w0,
            chat_count (calls (run svc i w0).2) ≤ chat_count (calls w0) + 1
            ∧ ((run svc i w0).1 = RerunRequest →
               chat_count (calls (run svc i w0).2) = chat_count (calls w0))).
  { intros i w0. unfold run. rewrite script_split.
    pose proof (prelude_same_chats svc i (set_ui [] w0)) as Hpre.
    destruct ((page_top;; sidebar svc i) (set_ui [] w0)) as [[[] | e |] w1];
      cbn [fst snd] in *; unfold same_chats in Hpre; world_simpl;
      try (split; [lia | intros _; assumption]).
    pose proof (main_chat_at_most_one_chat svc i w1) as Hmain.
    pose proof (main_chat_returns svc i w1) as Hret.
    split; [lia | rewrite Hret; discriminate]. }
  unfold interaction.
  destruct (Hrun inp w) as [Hle Hrerun]. pose proof (Hquiet inp w) as Hq.
  destruct (run svc inp w) as [[[] | e |] w1]; cbn [fst snd] in *;
    try (split; assumption).
  specialize (Hrerun eq_refl).
  pose proof (Hquiet (rerun_inputs inp) w1 (or_introl eq_refl)) as H2.
  split; [lia | intros _; lia].
Qed.

(** ** What the script keeps to *)

Ltac dirs_step :=
  first [reflexivity | apply subseteq_difference_l; reflexivity].

#[local] Instance confined_preorder : PreOrder confined.
Proof.
  split.
  - intros w. unfold confined.
    split_and!; [reflexivity | reflexivity | eauto | dirs_step | dirs_step
                | tauto | reflexivity].
  - intros w1 w2 w3 (Hl12 & Hf12 & Hg12 & Hk12 & Hs12 & Hr12 & He12)
      (Hl23 & Hf23 & Hg23 & Hk23 & Hs23 & Hr23 & He23).
    unfold confined. split_and!.
    + intros n Hn. now rewrite Hl23, Hl12.
    + intros p Hp. now rewrite Hf23, Hf12.
    + intros d n Hd Hn.
      destruct (Hg12 d n Hd Hn) as (d2 & Hd2 & Hn2). eauto.
    + intros x Hx. apply Hk23, elem_of_difference. split.
      * apply Hk12, Hx.
      * apply elem_of_difference in Hx. tauto.
    + etransitivity; eassumption.
    + auto.
    + congruence.
Qed.

Ltac confined_step :=
  unfold confined; world_simpl;
  split_and!;
    [ intros ? ?; rewrite ?lookup_insert_ne by congruence; reflexivity
    | intros ? ?; reflexivity
    | intros ? ? ? ?; eauto
    | dirs_step
    | dirs_step
    | intros ?; (reflexivity || assumption)
    | reflexivity ].

(** Writing into the corpus folder, no name being lost. *)
Lemma update_corpus_confined (w : World) d d' :
  folders w !! RESEARCH_PAPERS_PATH = d →
  (∀ n, is_Some (default ∅ d !! n) → is_Some (d' !! n)) →
  confined w (update_folders (<[RESEARCH_PAPERS_PATH := d']>) w).
Proof.
  intros Hd Hnames. unfold confined. world_simpl.
  split_and!; [reflexivity | | | dirs_step | dirs_step | tauto | reflexivity].
  - intros p Hp. now rewrite lookup_insert_ne.
  - intros d0 n Hd0 Hn. rewrite lookup_insert_eq. eexists. split; [reflexivity|].
    apply Hnames. rewrite <- Hd, Hd0. exact Hn.
Qed.

Lemma create_new_library_returns_name (n : string) :
  returns (λ library, library_name library = n) (create_new_library n).
Proof.
  intros w a w'. unfold create_new_library, new_library_object. run_m.
  destruct (libraries w !! n); run_m; intros [= <- _]; reflexivity.
Qed.

Ltac confined_with known :=
  repeat first
    [ known
    | apply stable_ret; preorder_goal
    | apply stable_raise; preorder_goal
    | apply stable_rerun; preorder_goal
    | apply stable_get_world; preorder_goal
    | apply stable_lift; preorder_goal
    | apply stable_raise_if; preorder_goal
    | apply stable_cache_resource;
        [typeclasses eauto | | intros ? ?; confined_step | intros ? ?; confined_step]
    | apply stable_bind; preorder_goal; [|intros ?]
    | apply stable_try_except; preorder_goal; [|intros ?]
    | apply stable_modify; intros ?; confined_step
    | match goal with
      | |- stable _ (match ?x with _ => _ end) => destruct x
      end
    | progress unfold st, log, with_spinner, os_path_exists, os_listdir,
        os_environ_get, load_dotenv, new_library_object, load_library,
        create_new_library, library_path_exists, rmtree_library_path,
        library_root_exists, makedirs_library_root ].

Ltac confined_tac := confined_with fail.

Lemma process_and_embed_files_confined (svc : Services) (folder : string) :
  stable confined (process_and_embed_files svc LIBRARY_NAME folder).
Proof.
  unfold process_and_embed_files.
  apply stable_bind; [typeclasses eauto | confined_tac | intros _].
  apply stable_bind; [typeclasses eauto | confined_tac | intros there].
  apply stable_bind; [typeclasses eauto | confined_tac | intros _].
  apply (stable_bind_with confined (λ library, library_name library = LIBRARY_NAME));
    [confined_tac | apply create_new_library_returns_name |].
  intros library Hname. unfold add_files, install_new_embedding.
  rewrite Hname. confined_tac.
Qed.

Lemma script_confined (svc : Services) (inp : Inputs) :
  plain_uploads inp → stable confined (script svc inp).
Proof.
  intros Hplain.
  unfold script, page_top, sidebar, process_handler,
    main_chat, main_chat_body, main_chat_except, get_answer_handler,
    semantic_search, ask_groq, setup_library, setup_library_body.
  confined_with
    ltac:(first
      [ apply process_and_embed_files_confined
      | apply upload_handler_stable;
          [ typeclasses eauto | exact Hplain | intros ? ?; confined_step
          | intros ? ?; confined_step
          | intros ? ? ? ? ?; eapply update_corpus_confined; eassumption ] ]).
Qed.

(** X19.  Through any session in which every uploaded file has a plain
    name, the script keeps to its own.  Every collection under another
    name and every folder other than the corpus folder is as it was; a
    file name present in the corpus folder is still present: nothing
    removes a document, so every rebuild ingests all the documents
    uploaded so far.  Under [~/llmware/library] the one directory the
    script can remove is the one named after its collection and it
    creates none; [~/llmware/library], which the load of the collection
    creates, is never removed; the [.env] file is not written. *)
Theorem session_keeps_to_its_own (svc : Services) (inps : list Inputs) (w : World) :
  Forall plain_uploads inps →
  (∀ n, n ≠ LIBRARY_NAME →
     libraries (session svc inps w) !! n = libraries w !! n)
  ∧ (∀ p, p ≠ RESEARCH_PAPERS_PATH →
       folders (session svc inps w) !! p = folders w !! p)
  ∧ (∀ d n, folders w !! RESEARCH_PAPERS_PATH = Some d → is_Some (d !! n) →
       ∃ d', folders (session svc inps w) !! RESEARCH_PAPERS_PATH = Some d'
             ∧ is_Some (d' !! n))
  ∧ library_dirs w ∖ {[LIBRARY_NAME]} ⊆ library_dirs (session svc inps w)
  ∧ library_dirs (session svc inps w) ⊆ library_dirs w
  ∧ (library_root w = true → library_root (session svc inps w) = true)
  ∧ dotenv_file (session svc inps w) = dotenv_file w.
Proof.
  intros Hplain.
  change (confined w (session svc inps w)).
  assert (Hrun : ∀ i w0, plain_uploads i → confined w0 (run svc i w0).2).
  { intros i w0 Hi. unfold run. transitivity (set_ui [] w0).
    - confined_step.
    - now apply script_confined. }
  revert w. induction Hplain as [|inp inps Hinp Hinps IH]; intros w;
    cbn [session foldl].
  - reflexivity.
  - etransitivity; [|apply IH].
    unfold interaction. pose proof (Hrun inp w Hinp) as H1.
    destruct (run svc inp w) as [[[] | e |] w1]; cbn [snd] in *; try assumption.
    etransitivity; [exact H1 | apply Hrun, Hinp].
Qed.

(** ** The further properties at work *)

Lemma ask_groq_returns_first_choice_demo :
  ask_groq Demo.services Scenario.question LLM_MODEL (Demo.with_key Demo.fresh)
  = (Ret "42",
     set_calls
       [CallChatCompletions
          (mkChatRequest "gsk_test" [mkMessage "user" Scenario.question] LLM_MODEL)]
       (set_ui [Spinner "Calling Groq's LPU to synthesize the answer..."]
          (Demo.with_key Demo.fresh))).
Proof.
  apply (ask_groq_returns_first_choice Demo.services Scenario.question LLM_MODEL
           "gsk_test" Scenario.answer [] (Demo.with_key Demo.fresh));
    [reflexivity | discriminate | reflexivity].
Defined.

Lemma ask_groq_without_choices_demo :
  ask_groq Scenario.services_mute Scenario.question LLM_MODEL (Demo.with_key Demo.fresh)
  = (Ret "",
     set_ui [Spinner "Calling Groq's LPU to synthesize the answer...";
             Error "Error during Groq API call: list index out of range"]
       (set_calls
          [CallChatCompletions
             (mkChatRequest "gsk_test" [mkMessage "user" Scenario.question] LLM_MODEL)]
          (Demo.with_key Demo.fresh))).
Proof.
  apply (ask_groq_without_choices Scenario.services_mute Scenario.question LLM_MODEL
           "gsk_test" (Demo.with_key Demo.fresh));
    [reflexivity | discriminate | reflexivity].
Defined.

Lemma ask_groq_with_empty_credential_demo :
  ask_groq Demo.services Scenario.question LLM_MODEL Scenario.empty_key
  = (Ret "Error: GROQ environment variable not set. Please add it to your .env file.",
     Scenario.empty_key).
Proof.
  apply (ask_groq_with_empty_credential Demo.services). reflexivity.
Defined.

Lemma empty_question_warns_demo :
  get_answer_handler Demo.services Demo.handle (Demo.ask "") Demo.ready
  = (Ret tt, set_ui (ui Demo.ready ++ [Warning "Please enter a question."]) Demo.ready).
Proof.
  apply (empty_question_warns Demo.services Demo.handle (Demo.ask "") Demo.ready);
    reflexivity.
Defined.

Lemma answer_is_rendered_verbatim_demo :
  ui (get_answer_handler Demo.services Demo.handle (Demo.ask "melting") Demo.ready).2
  = ui Demo.ready
    ++ [search_spinner "melting";
        Spinner "Calling Groq's LPU to synthesize the answer...";
        Subheader "💡 Answer";
        Markdown "42"].
Proof.
  refine (proj1 (proj2
    (answer_is_rendered_verbatim Demo.services Demo.handle (Demo.ask "melting")
       Demo.ready Scenario.short_result [Scenario.long_result] "gsk_test"
       Scenario.answer [] _ _ _ _ _ _)));
    [reflexivity | discriminate | vm_compute; reflexivity
    | vm_compute; reflexivity | discriminate | reflexivity].
Defined.

Lemma missing_credential_is_shown_as_answer_demo :
  get_answer_handler Demo.services Demo.handle (Demo.ask "melting") Scenario.no_key
  = (Ret tt,
     set_ui
       (ui Scenario.no_key
        ++ [search_spinner "melting";
            Subheader "💡 Answer";
            Markdown "Error: GROQ environment variable not set. Please add it to your .env file."])
       (set_calls
          (calls Scenario.no_key ++ [CallSemanticQuery Demo.handle "melting" 20])
          Scenario.no_key)).
Proof.
  apply (missing_credential_is_shown_as_answer Demo.services Demo.handle
           (Demo.ask "melting") Scenario.no_key Scenario.short_result
           [Scenario.long_result]);
    [reflexivity | discriminate | vm_compute; reflexivity | reflexivity].
Defined.

Lemma retrieval_failure_is_reported_as_load_failure_demo :
  (main_chat Demo.services (Demo.ask "melting") Scenario.lost).1 = Ret tt
  ∧ calls (main_chat Demo.services (Demo.ask "melting") Scenario.lost).2
    = calls Scenario.lost ++ [CallSemanticQuery Demo.handle "melting" 20].
Proof.
  destruct (retrieval_failure_is_reported_as_load_failure Demo.services
              (Demo.ask "melting") Scenario.lost Scenario.cached
              (mkExc "LibraryNotFoundException" LIBRARY_NAME))
    as (Hret & _ & Hcalls);
    [vm_compute; reflexivity | reflexivity | discriminate
    | vm_compute; reflexivity |].
  exact (conj Hret Hcalls).
Defined.

Lemma question_without_collection_is_not_dispatched_demo :
  calls (main_chat Demo.services (Demo.ask "melting") Demo.fresh).2
  = [CallMakedirs "~/llmware/library"; CallLoadLibrary LIBRARY_NAME].
Proof.
  exact (proj2 (proj2
    (question_without_collection_is_not_dispatched Demo.services
       (Demo.ask "melting") Demo.fresh eq_refl eq_refl))).
Defined.

Lemma final_prompt_ignores_results_after_seventh_demo :
  final_prompt (replicate 7 Scenario.short_result ++ [Scenario.long_result]) "melting"
  = final_prompt (replicate 7 Scenario.short_result) "melting".
Proof.
  apply (final_prompt_ignores_results_after_seventh
           (replicate 7 Scenario.short_result) [Scenario.long_result] "melting").
  cbn. lia.
Defined.



(** A name with a separator is no plain name: the write is left to the
    operating system, which here finds no such directory, and the upload
    handler ends with its exception. *)
Example upload_under_a_path_raises :
  plain_name "sub/a.txt" = false
  ∧ (upload_handler Demo.services
       (Demo.upload [Demo.paper "sub/a.txt" "short"]) Demo.empty_folder).1
    = Raise (mkExc "FileNotFoundError"
               "[Errno 2] No such file or directory: './research_papers/sub/a.txt'").
Proof. split; vm_compute; reflexivity. Qed.

(** The collection is built; the parser then fails on the folder: the
    chunks of the first build are still there, with their vectors. *)
Lemma failed_parsing_stops_the_build_demo :
  (process_and_embed_files Scenario.services_unreadable LIBRARY_NAME
     RESEARCH_PAPERS_PATH Demo.ready).1 = Raise Scenario.parse_error
  ∧ libraries (process_and_embed_files Scenario.services_unreadable LIBRARY_NAME
                 RESEARCH_PAPERS_PATH Demo.ready).2 !! LIBRARY_NAME
    = Some (built_collection Demo.blocks_of_papers [[34%Q]; [5%Q]]).
Proof.
  destruct (failed_parsing_stops_the_build Scenario.services_unreadable
              RESEARCH_PAPERS_PATH Demo.ready
              (Demo.corpus Demo.papers) [] Scenario.parse_error)
    as (Hraise & Hlibs & _); [vm_compute; reflexivity | reflexivity |].
  split; [exact Hraise|]. rewrite Hlibs, lookup_insert_eq.
  vm_compute. reflexivity.
Defined.

(** The papers are uploaded; the embedding model cannot be loaded: the
    chunks are stored without a vector, and retrieval refuses the
    collection. *)
Lemma failed_embedding_stops_the_build_demo :
  (process_and_embed_files Scenario.services_no_model LIBRARY_NAME
     RESEARCH_PAPERS_PATH Demo.uploaded).1 = Raise Scenario.model_error
  ∧ libraries (process_and_embed_files Scenario.services_no_model LIBRARY_NAME
                 RESEARCH_PAPERS_PATH Demo.uploaded).2
    = <[LIBRARY_NAME := built_collection Demo.blocks_of_papers []]>
        (libraries Demo.uploaded)
  ∧ fully_embedded (built_collection Demo.blocks_of_papers []) = false.
Proof.
  destruct (failed_embedding_stops_the_build Scenario.services_no_model
              RESEARCH_PAPERS_PATH Demo.uploaded
              (Demo.corpus Demo.papers) Demo.blocks_of_papers []
              Scenario.model_error)
    as (Hraise & Hlibs & _);
    [vm_compute; reflexivity | vm_compute; reflexivity | reflexivity |].
  split; [exact Hraise|]. split; [|reflexivity].
  rewrite Hlibs. reflexivity.
Defined.

Lemma corpus_of_papers_nonempty : Demo.corpus Demo.papers ≠ ∅.
Proof.
  intros Hempty. apply (f_equal (lookup "a.txt")) in Hempty.
  vm_compute in Hempty. discriminate.
Defined.

Lemma started_build_ends_the_run_demo :
  (run Demo.services Demo.build Demo.uploaded).1 ≠ Ret tt
  ∧ load_count LIBRARY_NAME (calls (run Demo.services Demo.build Demo.uploaded).2)
    = load_count LIBRARY_NAME (calls Demo.uploaded).
Proof.
  apply (started_build_ends_the_run Demo.services Demo.build Demo.uploaded
           (Demo.corpus Demo.papers));
    [reflexivity | reflexivity | vm_compute; reflexivity
    | exact corpus_of_papers_nonempty].
Defined.


(** The first page load of a new process: nothing is uploaded, nothing is
    clicked, and [~/llmware/library] is created. *)
Lemma interaction_without_build_is_read_only_demo :
  library_root Demo.fresh = false
  ∧ libraries (interaction Demo.services Demo.idle Demo.fresh) = libraries Demo.fresh
  ∧ library_dirs (interaction Demo.services Demo.idle Demo.fresh)
    = library_dirs Demo.fresh
  ∧ folders (interaction Demo.services Demo.idle Demo.fresh) = folders Demo.fresh
  ∧ library_root (interaction Demo.services Demo.idle Demo.fresh) = true.
Proof.
  destruct (interaction_without_build_is_read_only Demo.services Demo.idle
              Demo.fresh eq_refl (Forall_nil_2 _))
    as (Hlibs & Hdirs & _ & Hfolders & Hroot).
  split; [reflexivity|].
  exact (conj Hlibs (conj Hdirs (conj (Hfolders eq_refl) (Hroot eq_refl eq_refl)))).
Defined.

Lemma successful_build_makes_ready_demo :
  controller_state Demo.uploaded = NoCollection
  ∧ libraries (interaction Demo.services Demo.build Demo.uploaded) !! LIBRARY_NAME
    = Some (built_collection Demo.blocks_of_papers [[34%Q]; [5%Q]])
  ∧ controller_state (interaction Demo.services Demo.build Demo.uploaded) = Ready.
Proof.
  split; [vm_compute; reflexivity|].
  destruct (successful_build_makes_ready Demo.services Demo.build Demo.uploaded
              (Demo.corpus Demo.papers) Demo.blocks_of_papers [[34%Q]; [5%Q]])
    as (_ & _ & Hfresh & Hready);
    [reflexivity | reflexivity | vm_compute; reflexivity
    | exact corpus_of_papers_nonempty | vm_compute; reflexivity
    | vm_compute; reflexivity |].
  split; [apply Hfresh; vm_compute; reflexivity | exact Hready].
Defined.

Lemma at_most_one_request_per_interaction_demo :
  chat_count (calls (interaction Demo.services (Demo.ask "") Demo.ready))
  = chat_count (calls Demo.ready).
Proof.
  apply (proj2 (at_most_one_request_per_interaction Demo.services (Demo.ask "")
                  Demo.ready)).
  right. reflexivity.
Defined.

Lemma later_session_has_plain_names : Forall plain_uploads Demo.later_session.
Proof. repeat constructor. Defined.

Lemma session_keeps_to_its_own_demo :
  ∃ d', folders (session Demo.services Demo.later_session Demo.ready)
          !! RESEARCH_PAPERS_PATH = Some d'
        ∧ is_Some (d' !! "a.txt").
Proof.
  destruct (session_keeps_to_its_own Demo.services Demo.later_session Demo.ready
              later_session_has_plain_names) as (_ & _ & Hnames & _).
  apply (Hnames (Demo.corpus Demo.papers) "a.txt").
  - vm_compute. reflexivity.
  - vm_compute. eauto.
Defined.
